(** * Parameter resolution pipeline of the Jira issue agent

    A shallow embedding of the extraction / validation / defaulting code of
    [aiParameterExtractor.ts], [informationExtractor.ts] and
    [conversationManager.ts], together with the properties the specification
    states about it.

    Modelling conventions.

    - A JavaScript string is a Rocq [string]; the development is exact on
      ASCII text ([is_ascii]).  Bytes above 0x7F stand for the encoding of
      non-ASCII characters and are opaque: the case maps leave them alone,
      they are neither white space nor word characters, and the length of
      a text counts them one by one.  A property that depends on the case
      map, the trimming or the length of a text that is not produced by the
      code itself is stated for ASCII text.
    - A JavaScript number is a [jsnum]: an exact rational or [NaN].  Rounding
      to binary64 and overflow to infinity are not modelled; every number the
      code compares is either a literal of the source or a literal of the
      completion text, clamped into the unit interval before use.
    - A value that may be any JavaScript value at run time (the members of a
      parsed completion) is a [jsval].
    - [throw] and [try]/[catch] are the error monad [res].
    - [console.log] and the other logging calls print and return nothing,
      and are left out, except where the message is a template literal
      over a value taken from the completion: converting such a value to
      a text can throw ([stringifies]), and the throw is kept. *)

From Stdlib Require Import Ascii String QArith Qminmax.
From stdpp Require Import base gmap strings list.

Open Scope string_scope.

(** ** JavaScript strings *)

Module JsString.

Definition code (c : ascii) : nat := nat_of_ascii c.

Definition in_range (lo hi : nat) (c : ascii) : bool :=
  (lo <=? code c)%nat && (code c <=? hi)%nat.

Definition is_upper (c : ascii) : bool := in_range 65 90 c.
Definition is_lower (c : ascii) : bool := in_range 97 122 c.
Definition is_digit (c : ascii) : bool := in_range 48 57 c.

(** [\w] of a regular expression: letters, digits and the underscore. *)
Definition is_word (c : ascii) : bool :=
  is_upper c || is_lower c || is_digit c || (code c =? 95)%nat.

(** White space of [String.prototype.trim] and of [\s]: tab, line feed,
    vertical tab, form feed, carriage return and space. *)
Definition is_white (c : ascii) : bool :=
  in_range 9 13 c || (code c =? 32)%nat.

Definition lower_char (c : ascii) : ascii :=
  if is_upper c then ascii_of_nat (code c + 32) else c.

(** The case maps on a byte: those of ECMAScript on ASCII. *)
Definition upper_char (c : ascii) : ascii :=
  if is_lower c then ascii_of_nat (code c - 32) else c.

Fixpoint toLowerCase (s : string) : string :=
  match s with
  | EmptyString => EmptyString
  | String c t => String (lower_char c) (toLowerCase t)
  end.

Fixpoint toUpperCase (s : string) : string :=
  match s with
  | EmptyString => EmptyString
  | String c t => String (upper_char c) (toUpperCase t)
  end.

(** [s.includes(sub)]. *)
Fixpoint includes (s sub : string) : bool :=
  String.prefix sub s ||
  match s with
  | EmptyString => false
  | String _ t => includes t sub
  end.

Fixpoint trimStart (s : string) : string :=
  match s with
  | EmptyString => EmptyString
  | String c t => if is_white c then trimStart t else s
  end.

Fixpoint trimEnd (s : string) : string :=
  match s with
  | EmptyString => EmptyString
  | String c t =>
      match trimEnd t with
      | EmptyString => if is_white c then EmptyString else String c EmptyString
      | t' => String c t'
      end
  end.

Definition trim (s : string) : string := trimEnd (trimStart s).

(** [s.charAt(0).toUpperCase() + s.slice(1)]. *)
Definition capitalize (s : string) : string :=
  match s with
  | EmptyString => EmptyString
  | String c t => String (upper_char c) t
  end.

(** [xs.join(sep)]. *)
Fixpoint join (sep : string) (xs : list string) : string :=
  match xs with
  | [] => ""
  | [x] => x
  | x :: rest => x +:+ sep +:+ join sep rest
  end.

(** [xs.includes(x)] on an array of strings. *)
Definition mem (x : string) (xs : list string) : bool :=
  existsb (String.eqb x) xs.

(** [xs.some(k => s.includes(k))]. *)
Definition includes_any (s : string) (keys : list string) : bool :=
  existsb (includes s) keys.

(** The double quote character, and a helper that writes a text containing
    double quotes with apostrophes in their place. *)
Definition dquote : ascii := ascii_of_nat 34.
Definition squote : ascii := ascii_of_nat 39.

Fixpoint dq (s : string) : string :=
  match s with
  | EmptyString => EmptyString
  | String c t => String (if Ascii.eqb c squote then dquote else c) (dq t)
  end.

(** Whether a text is ASCII: every byte is below 0x80.  On such a text the
    case maps, the white-space test and the length are those of
    ECMAScript. *)
Fixpoint is_ascii (s : string) : bool :=
  match s with
  | EmptyString => true
  | String c t => (code c <? 128)%nat && is_ascii t
  end.

(** Whether a text has an upper-case letter. *)
Fixpoint has_upper (s : string) : bool :=
  match s with
  | EmptyString => false
  | String c t => is_upper c || has_upper t
  end.

(** Whether a text is empty or begins with a character that is not white
    space. *)
Definition starts_black (s : string) : bool :=
  match s with
  | EmptyString => true
  | String c _ => negb (is_white c)
  end.

End JsString.

Import JsString.

(** ** Regular expressions

    A backtracking matcher with the priorities of ECMAScript: alternatives
    left to right, greedy quantifiers longest first, lazy ones shortest
    first, and an iteration of a quantifier that consumes nothing is
    rejected.  The patterns of the source have one capture group, which is
    never under a quantifier, so the matcher keeps one capture and does not
    reset it between iterations. *)

Module Regex.

Inductive regex : Type :=
| Eps                                         (* the empty pattern *)
| Chr (c : ascii)                             (* a literal character *)
| Class (neg : bool) (rs : list (nat * nat))  (* [...] and [^...] as code ranges *)
| Seq (r1 r2 : regex)
| Alt (r1 r2 : regex)
| Star (greedy : bool) (r : regex)            (* r* and r*? *)
| Group (r : regex)                           (* ( r ), capture 1 *)
| Ahead (r : regex)                           (* (?= r ) *)
| Eos                                         (* $ without the m flag *)
| WordB.                                      (* \b *)

(** Derived forms. *)
Definition Plus (greedy : bool) (r : regex) : regex := Seq r (Star greedy r).
Definition Opt (r : regex) : regex := Alt r Eps.

Fixpoint Lit (s : string) : regex :=
  match s with
  | EmptyString => Eps
  | String c EmptyString => Chr c
  | String c t => Seq (Chr c) (Lit t)
  end.

Fixpoint Alts (rs : list regex) : regex :=
  match rs with
  | [] => Class false []
  | [r] => r
  | r :: rest => Alt r (Alts rest)
  end.

Definition one (c : ascii) : nat * nat := (code c, code c).
Definition space_ranges : list (nat * nat) := [(9, 13); (32, 32)].
Definition word_ranges : list (nat * nat) := [(65, 90); (97, 122); (48, 57); (95, 95)].
Definition Space : regex := Class false space_ranges.       (* \s *)
Definition Word : regex := Class false word_ranges.         (* \w *)
Definition AnyChar : regex := Class true [].                (* [\s\S] *)

Record mstate : Type := MState {
  prev : option ascii;      (* the character before the position *)
  rest : string;            (* the input from the position on *)
  cap : option string       (* capture 1 *)
}.

Definition in_ranges (rs : list (nat * nat)) (c : ascii) : bool :=
  existsb (fun r => in_range (fst r) (snd r) c) rs.

(** With the [i] flag two characters match when their canonical (upper
    case) forms agree. *)
Definition chr_match (ci : bool) (c a : ascii) : bool :=
  if ci then Ascii.eqb (upper_char c) (upper_char a) else Ascii.eqb c a.

Definition class_match (ci : bool) (neg : bool) (rs : list (nat * nat)) (a : ascii) : bool :=
  let hit := in_ranges rs a || (ci && (in_ranges rs (upper_char a) || in_ranges rs (lower_char a))) in
  if neg then negb hit else hit.

Definition advance (s : mstate) (a : ascii) (t : string) : mstate :=
  MState (Some a) t (cap s).

(** The text consumed between two positions of the same input. *)
Definition consumed (s s' : mstate) : string :=
  String.substring 0 (String.length (rest s) - String.length (rest s')) (rest s).

Definition is_word_opt (o : option ascii) : bool :=
  match o with Some c => is_word c | None => false end.

Definition next_char (s : mstate) : option ascii :=
  match rest s with String a _ => Some a | EmptyString => None end.

(** The iterations of a quantifier whose body is matched by [body]: a
    greedy one tries another iteration before the continuation, a lazy one
    the continuation first.  An iteration must consume a character, so a
    fuel above the length of the remaining input is never exhausted. *)
Fixpoint star_loop (greedy : bool)
    (body : (mstate -> option mstate) -> mstate -> option mstate)
    (k : mstate -> option mstate) (fuel : nat) (s : mstate) : option mstate :=
  match fuel with
  | O => k s
  | S fuel' =>
      let again s' :=
        if (String.length (rest s') <? String.length (rest s))%nat
        then star_loop greedy body k fuel' s' else None in
      if greedy then
        match body again s with
        | Some x => Some x
        | None => k s
        end
      else
        match k s with
        | Some x => Some x
        | None => body again s
        end
  end.

Fixpoint m (ci : bool) (r : regex) (k : mstate -> option mstate) (s : mstate)
  : option mstate :=
  match r with
  | Eps => k s
  | Chr c =>
      match rest s with
      | String a t => if chr_match ci c a then k (advance s a t) else None
      | EmptyString => None
      end
  | Class neg rs =>
      match rest s with
      | String a t => if class_match ci neg rs a then k (advance s a t) else None
      | EmptyString => None
      end
  | Seq r1 r2 => m ci r1 (m ci r2 k) s
  | Alt r1 r2 =>
      match m ci r1 k s with
      | Some x => Some x
      | None => m ci r2 k s
      end
  | Star greedy r' => star_loop greedy (m ci r') k (S (String.length (rest s))) s
  | Group r' =>
      m ci r' (fun s' => k (MState (prev s') (rest s') (Some (consumed s s')))) s
  | Ahead r' =>
      match m ci r' Some s with
      | Some _ => k s
      | None => None
      end
  | Eos =>
      match rest s with
      | EmptyString => k s
      | _ => None
      end
  | WordB =>
      if xorb (is_word_opt (prev s)) (is_word_opt (next_char s)) then k s else None
  end.

(** The result of [String.prototype.match] with a pattern without the [g]
    flag: the text before the match, the match, capture 1 and the text
    after the match. *)
Record rmatch : Type := RMatch {
  before : string;
  whole : string;
  group1 : option string;
  after : string
}.

(** Try the pattern at the current position, then one character further. *)
Fixpoint search (ci : bool) (r : regex) (pre : string) (p : option ascii) (s : string)
  : option rmatch :=
  let start := MState p s None in
  match m ci r Some start with
  | Some fin => Some (RMatch pre (consumed start fin) (cap fin) (rest fin))
  | None =>
      match s with
      | EmptyString => None
      | String a t => search ci r (pre +:+ String a EmptyString) (Some a) t
      end
  end.

Definition exec (ci : bool) (r : regex) (s : string) : option rmatch :=
  search ci r "" None s.

(** [s.replace(/r/g, '')]: every match is removed.  None of the patterns
    used with it matches the empty text. *)
Fixpoint remove_all (ci : bool) (r : regex) (fuel : nat) (s : string) : string :=
  match fuel with
  | O => s
  | S fuel' =>
      match exec ci r s with
      | Some mt => before mt +:+ remove_all ci r fuel' (after mt)
      | None => s
      end
  end.

(** A pattern in which every successful match passes through the group. *)
Fixpoint captures (r : regex) : bool :=
  match r with
  | Group _ => true
  | Seq r1 r2 => captures r1 || captures r2
  | Alt r1 r2 => captures r1 && captures r2
  | _ => false
  end.

End Regex.

(** ** JavaScript values and numbers *)

Module JsValue.

(** A number: an exact rational, or NaN. *)
Inductive jsnum : Type :=
| NaN
| Num (q : Q).

(** The values the pipeline can hold at run time: what [JSON.parse]
    returns, and the two members every object literal inherits from
    [Object.prototype] under an all-lower-case key, the function
    [Object] (key [constructor]) and [Object.prototype] itself (key
    [__proto__]). *)
#[warnings="-register-all"]
Inductive jsval : Type :=
| JNull
| JBool (b : bool)
| JNum (q : Q)
| JStr (s : string)
| JArr (xs : list jsval)
| JObj (members : list (string * jsval))
| JObjectCtor
| JObjectProto.

(** ToBoolean. *)
Definition truthy (v : jsval) : bool :=
  match v with
  | JNull => false
  | JBool b => b
  | JNum q => negb (Qeq_bool q 0)
  | JStr s => negb (String.eqb s "")
  | JArr _ | JObj _ | JObjectCtor | JObjectProto => true
  end.

Definition falsy (v : jsval) : bool := negb (truthy v).

(** [Math.min] and [Math.max] at two arguments. *)
Definition js_min (a b : jsnum) : jsnum :=
  match a, b with
  | Num x, Num y => if Qle_bool x y then Num x else Num y
  | _, _ => NaN
  end.

Definition js_max (a b : jsnum) : jsnum :=
  match a, b with
  | Num x, Num y => if Qle_bool y x then Num x else Num y
  | _, _ => NaN
  end.

(** [a < b]: false as soon as one side is NaN. *)
Definition js_lt (a b : jsnum) : bool :=
  match a, b with
  | Num x, Num y => negb (Qle_bool y x)
  | _, _ => false
  end.

(** [a >= b]. *)
Definition js_ge (a b : jsnum) : bool :=
  match a, b with
  | Num x, Num y => Qle_bool y x
  | _, _ => false
  end.

Definition is_zero (a : jsnum) : bool :=
  match a with
  | Num x => Qeq_bool x 0
  | NaN => false
  end.

(** [o[key]] on a parsed object: the last member with that key wins, as
    in [JSON.parse]; [None] is [undefined]. *)
Fixpoint get_member (key : string) (members : list (string * jsval)) : option jsval :=
  match members with
  | [] => None
  | (k, v) :: rest =>
      match get_member key rest with
      | Some v' => Some v'
      | None => if String.eqb k key then Some v else None
      end
  end.

(** Whether the conversion of a value to a primitive (ECMA-262, 7.1.1),
    and so ToString and ToNumber of the value, returns.  On a parsed object
    it goes through the members [toString] and [valueOf]: an own member
    is never callable and is skipped, the inherited [valueOf] returns the
    object itself, and the inherited [toString] returns a text; so the
    conversion throws a TypeError exactly when the object has an own
    member [toString].  An array is joined, which converts each of its
    elements other than null. *)
Fixpoint stringifies (v : jsval) : bool :=
  match v with
  | JArr xs => forallb stringifies xs
  | JObj members =>
      match get_member "toString" members with
      | Some _ => false
      | None => true
      end
  | JNull | JBool _ | JNum _ | JStr _ | JObjectCtor | JObjectProto => true
  end.

End JsValue.

Import JsValue.

(** ** Errors *)

Module Err.

(** The outcome of a computation that may throw. *)
Inductive res (A : Type) : Type :=
| Ok (a : A)
| Throw.

Arguments Ok {A} a.
Arguments Throw {A}.

Definition bind {A B : Type} (c : res A) (f : A -> res B) : res B :=
  match c with
  | Ok a => f a
  | Throw => Throw
  end.

(** [try { body } catch { handler }]. *)
Definition try_catch {A : Type} (body : res A) (handler : res A) : res A :=
  match body with
  | Ok a => Ok a
  | Throw => handler
  end.

Definition returns {A : Type} (c : res A) : Prop := exists a, c = Ok a.

End Err.

Import Err.

#[global] Instance res_ret : MRet res := @Ok.
#[global] Instance res_bind : MBind res := fun A B f c => Err.bind c f.

(** ** JSON.parse

    A recursive-descent reader of the JSON grammar (ECMA-404).  A numeric
    literal denotes its exact decimal value. *)

Module Json.

Definition is_json_white (c : ascii) : bool :=
  match code c with
  | 32 | 9 | 10 | 13 => true
  | _ => false
  end.

Fixpoint skip_white (s : string) : string :=
  match s with
  | EmptyString => EmptyString
  | String c t => if is_json_white c then skip_white t else s
  end.

Fixpoint take_digits (s : string) : string * string :=
  match s with
  | EmptyString => (EmptyString, EmptyString)
  | String c t =>
      if is_digit c then
        let '(d, r) := take_digits t in (String c d, r)
      else (EmptyString, s)
  end.

(** The value of a string of decimal digits. *)
Fixpoint digits_value (acc : Z) (s : string) : Z :=
  match s with
  | EmptyString => acc
  | String c t => digits_value (10 * acc + Z.of_nat (code c - 48)) t
  end.

Definition leading_zero (d : string) : bool :=
  match d with
  | String c (String _ _) => Ascii.eqb c "0"
  | _ => false
  end.

(** mantissa * 10^exponent as a reduced fraction. *)
Definition scale (mant e : Z) : Q :=
  if (0 <=? e)%Z then inject_Z (mant * 10 ^ e)
  else Qred (mant # Z.to_pos (10 ^ (- e))).

Definition parse_fraction (s : string) : option (string * string) :=
  match s with
  | String "." t =>
      let '(d, r) := take_digits t in
      if String.eqb d "" then None else Some (d, r)
  | _ => Some (EmptyString, s)
  end.

Definition parse_exponent (s : string) : option (Z * string) :=
  let digits t (sgn : Z) :=
    let '(d, r) := take_digits t in
    if String.eqb d "" then None else Some ((sgn * digits_value 0 d)%Z, r) in
  match s with
  | String c t =>
      if Ascii.eqb c "e" || Ascii.eqb c "E" then
        match t with
        | String "+" t' => digits t' 1%Z
        | String "-" t' => digits t' (-1)%Z
        | _ => digits t 1%Z
        end
      else Some (0%Z, s)
  | EmptyString => Some (0%Z, s)
  end.

Definition parse_number (s : string) : option (Q * string) :=
  let '(sgn, s1) :=
    match s with
    | String "-" t => ((-1)%Z, t)
    | _ => (1%Z, s)
    end in
  let '(ip, s2) := take_digits s1 in
  if String.eqb ip "" || leading_zero ip then None else
  match parse_fraction s2 with
  | None => None
  | Some (fp, s3) =>
      match parse_exponent s3 with
      | None => None
      | Some (e, s4) =>
          let mant := (sgn * digits_value 0 (ip +:+ fp))%Z in
          Some (scale mant (e - Z.of_nat (String.length fp)), s4)
      end
  end.

Definition hex_digit (c : ascii) : option nat :=
  if is_digit c then Some (code c - 48)
  else if in_range 97 102 c then Some (code c - 87)
  else if in_range 65 70 c then Some (code c - 55)
  else None.

Definition hex4 (a b c d : ascii) : option nat :=
  match hex_digit a, hex_digit b, hex_digit c, hex_digit d with
  | Some x, Some y, Some z, Some w => Some (((x * 16 + y) * 16 + z) * 16 + w)
  | _, _, _, _ => None
  end.

(** The bytes that stand for a code unit: itself below 0x80, its UTF-8
    encoding above. *)
Definition encode (n : nat) : string :=
  if (n <? 128)%nat then String (ascii_of_nat n) EmptyString
  else if (n <? 2048)%nat then
    String (ascii_of_nat (192 + n / 64))
      (String (ascii_of_nat (128 + n mod 64)) EmptyString)
  else
    String (ascii_of_nat (224 + n / 4096))
      (String (ascii_of_nat (128 + (n / 64) mod 64))
         (String (ascii_of_nat (128 + n mod 64)) EmptyString)).

Definition prepend (p : string) (o : option (string * string)) : option (string * string) :=
  match o with
  | Some (s, r) => Some (p +:+ s, r)
  | None => None
  end.

Definition escape (c : ascii) : option ascii :=
  match code c with
  | 34 => Some dquote
  | 92 => Some "\"%char
  | 47 => Some "/"%char
  | 98 => Some (ascii_of_nat 8)
  | 102 => Some (ascii_of_nat 12)
  | 110 => Some (ascii_of_nat 10)
  | 114 => Some (ascii_of_nat 13)
  | 116 => Some (ascii_of_nat 9)
  | _ => None
  end.

(** The characters of a string literal, after its opening quote. *)
Fixpoint parse_chars (s : string) : option (string * string) :=
  match s with
  | EmptyString => None
  | String c t =>
      if Ascii.eqb c dquote then Some (EmptyString, t)
      else if Ascii.eqb c "\" then
        match t with
        | String "u" (String h1 (String h2 (String h3 (String h4 t')))) =>
            match hex4 h1 h2 h3 h4 with
            | Some n => prepend (encode n) (parse_chars t')
            | None => None
            end
        | String e t' =>
            match escape e with
            | Some x => prepend (String x EmptyString) (parse_chars t')
            | None => None
            end
        | EmptyString => None
        end
      else if (code c <? 32)%nat then None
      else prepend (String c EmptyString) (parse_chars t)
  end.

Fixpoint strip_prefix (p s : string) : option string :=
  match p, s with
  | EmptyString, _ => Some s
  | String a p', String b s' => if Ascii.eqb a b then strip_prefix p' s' else None
  | String _ _, EmptyString => None
  end.

Definition parse_literal (s : string) : option (jsval * string) :=
  match strip_prefix "null" s with
  | Some r => Some (JNull, r)
  | None =>
      match strip_prefix "true" s with
      | Some r => Some (JBool true, r)
      | None =>
          match strip_prefix "false" s with
          | Some r => Some (JBool false, r)
          | None => None
          end
      end
  end.

Fixpoint parse_value (fuel : nat) (s : string) : option (jsval * string) :=
  match fuel with
  | O => None
  | S fuel' =>
      match skip_white s with
      | String "{" t =>
          match skip_white t with
          | String "}" r => Some (JObj [], r)
          | t' =>
              match parse_members fuel' t' with
              | Some (ms, r) => Some (JObj ms, r)
              | None => None
              end
          end
      | String "[" t =>
          match skip_white t with
          | String "]" r => Some (JArr [], r)
          | t' =>
              match parse_elements fuel' t' with
              | Some (xs, r) => Some (JArr xs, r)
              | None => None
              end
          end
      | String c t =>
          if Ascii.eqb c dquote then
            match parse_chars t with
            | Some (str, r) => Some (JStr str, r)
            | None => None
            end
          else if is_digit c || Ascii.eqb c "-" then
            match parse_number (String c t) with
            | Some (q, r) => Some (JNum q, r)
            | None => None
            end
          else parse_literal (String c t)
      | EmptyString => None
      end
  end
with parse_elements (fuel : nat) (s : string) : option (list jsval * string) :=
  match fuel with
  | O => None
  | S fuel' =>
      match parse_value fuel' s with
      | Some (v, r) =>
          match skip_white r with
          | String "," r' =>
              match parse_elements fuel' r' with
              | Some (vs, r'') => Some (v :: vs, r'')
              | None => None
              end
          | String "]" r' => Some ([v], r')
          | _ => None
          end
      | None => None
      end
  end
with parse_members (fuel : nat) (s : string) : option (list (string * jsval) * string) :=
  match fuel with
  | O => None
  | S fuel' =>
      match skip_white s with
      | String c t =>
          if Ascii.eqb c dquote then
            match parse_chars t with
            | Some (key, r) =>
                match skip_white r with
                | String ":" r1 =>
                    match parse_value fuel' r1 with
                    | Some (v, r2) =>
                        match skip_white r2 with
                        | String "," r3 =>
                            match parse_members fuel' r3 with
                            | Some (ms, r4) => Some ((key, v) :: ms, r4)
                            | None => None
                            end
                        | String "}" r3 => Some ([(key, v)], r3)
                        | _ => None
                        end
                    | None => None
                    end
                | _ => None
                end
            | None => None
            end
          else None
      | EmptyString => None
      end
  end.

(** [JSON.parse(s)]; [None] is a thrown [SyntaxError].  Every call of the
    reader consumes a character before it calls itself, so a fuel beyond
    the length of the text is never exhausted. *)
Definition parse (s : string) : option jsval :=
  match parse_value (2 * String.length s + 2) s with
  | Some (v, r) => if String.eqb (skip_white r) "" then Some v else None
  | None => None
  end.

End Json.

(** ** aiParameterExtractor.ts *)

Module AIParameterExtractor.

Inductive Source : Type :=
| ai_extracted
| user_confirmed
| follow_up_question
| default_source.            (* 'default' *)

Record ExtractedParameter : Type := Param {
  value : jsval;             (* string | null by its declared type *)
  confidence : jsnum;
  source : Source
}.

Record ExtractedParameters : Type := Params {
  title : ExtractedParameter;
  type : ExtractedParameter;
  project : ExtractedParameter;
  priority : ExtractedParameter;
  description : ExtractedParameter
}.

(** What the completion call of [extractParameters] does: it throws, or it
    returns with [completion.choices[0]?.message?.content], which is a
    text or is missing.  The prompt handed to the call
    ([preprocessProjectMentions], [buildExtractionPrompt]) only feeds the
    call, whose answer is arbitrary here. *)
Inductive Completion : Type :=
| CompletionThrows
| CompletionContent (content : option string).

Definition empty_parameter : ExtractedParameter := Param JNull (Num 0) ai_extracted.

Definition createEmptyExtraction : ExtractedParameters :=
  Params empty_parameter empty_parameter empty_parameter empty_parameter empty_parameter.

Definition default_type : ExtractedParameter := Param (JStr "Bug") (Num 1) default_source.
Definition default_project : ExtractedParameter :=
  Param (JStr "FV Demo (Issues)") (Num 1) default_source.
Definition default_priority : ExtractedParameter := Param (JStr "Medium") (Num 1) default_source.

Definition createDefaultExtraction : ExtractedParameters :=
  Params empty_parameter default_type default_project default_priority empty_parameter.

(** The confidence below which a default replaces type, project and
    priority, and the one below which title and description count as
    missing. *)
Definition defaulting_threshold : jsnum := Num (6 # 10).
Definition required_threshold : jsnum := Num (6 # 10).

(** [!p.value || p.confidence < t]. *)
Definition weak (t : jsnum) (p : ExtractedParameter) : bool :=
  falsy (value p) || js_lt (confidence p) t.

Definition applyDefaults (extracted : ExtractedParameters) : ExtractedParameters :=
  let result := extracted in
  let result :=
    if weak defaulting_threshold (type result)
    then Params (title result) default_type (project result) (priority result) (description result)
    else result in
  let result :=
    if weak defaulting_threshold (project result)
    then Params (title result) (type result) default_project (priority result) (description result)
    else result in
  let result :=
    if weak defaulting_threshold (priority result)
    then Params (title result) (type result) (project result) default_priority (description result)
    else result in
  result.

Record Validation : Type := MkValidation {
  isValid : bool;
  missingRequired : list string
}.

Definition validateRequiredParameters
    (extracted : ExtractedParameters) (confidenceThreshold : jsnum) : Validation :=
  let missing : list string := [] in
  let missing :=
    if weak confidenceThreshold (title extracted)
    then (missing ++ ["title"])%list else missing in
  let missing :=
    if weak confidenceThreshold (description extracted)
    then (missing ++ ["description"])%list else missing in
  MkValidation (Nat.eqb (length missing) 0) missing.

(** *** The lexical fallback *)

Import Regex.

Definition quote_class : regex := Class false [(34, 34); (39, 39)].   (* a quote of either kind *)
Definition not_quote : regex := Class true [(34, 34); (39, 39)].      (* anything but a quote *)
Definition not_comma_nl : regex := Class true [(44, 44); (10, 10)].   (* anything but comma and line feed *)

(** label \s* q ( nq+ ) q, with q a quote of either kind and nq anything
    but a quote *)
Definition quoted_after (label : string) : regex :=
  Seq (Lit label) (Seq (Star true Space)
    (Seq quote_class (Seq (Group (Plus true not_quote)) quote_class))).

(** label\s*([^,\n]+?)$ *)
Definition to_end_after (label : string) : regex :=
  Seq (Lit label) (Seq (Star true Space) (Seq (Group (Plus false not_comma_nl)) Eos)).

(** Title:\s*([^,\n]+?)(?=\s+(?:Issue Description|Description|$)) *)
Definition title_unquoted : regex :=
  Seq (Lit "Title:") (Seq (Star true Space)
    (Seq (Group (Plus false not_comma_nl))
       (Ahead (Seq (Plus true Space)
                 (Alts [Lit "Issue Description"; Lit "Description"; Eos]))))).

Definition titlePatterns : list regex :=
  [quoted_after "Title:"; title_unquoted].

Definition descriptionPatterns : list regex :=
  [quoted_after "Issue Description:"; quoted_after "Description:";
   to_end_after "Issue Description:"; to_end_after "Description:"].

(** The loop over a list of patterns (all with the [i] flag): the first
    pattern whose capture is not blank after trimming gives the value.
    Reading [match[1]] when the group took no part in the match throws. *)
Fixpoint first_capture (patterns : list regex) (userInput : string) : res (option string) :=
  match patterns with
  | [] => Ok None
  | pattern :: more =>
      match exec true pattern userInput with
      | None => first_capture more userInput
      | Some mt =>
          match group1 mt with
          | None => Throw
          | Some g =>
              if negb (String.eqb (trim g) "")
              then Ok (Some (trim g))
              else first_capture more userInput
          end
      end
  end.

Definition recovered (o : option string) : ExtractedParameter :=
  match o with
  | Some v => Param (JStr v) (Num (9 # 10)) ai_extracted
  | None => empty_parameter
  end.

Definition fallbackExtraction (userInput : string) : res ExtractedParameters :=
  t ← first_capture titlePatterns userInput;
  d ← first_capture descriptionPatterns userInput;
  mret (Params (recovered t) empty_parameter empty_parameter empty_parameter (recovered d)).

(** *** Reading the completion *)

Section Parsing.

(** ToNumber (ECMA-262, 7.1.4) of a string or an array goes through the
    text of the value and is not modelled. *)
Variable ToNumber_text : jsval -> jsnum.

(** The number ToNumber gives when the conversion returns; it returns
    exactly on the values that [stringifies], see [normalizeParameter_call]. *)
Definition ToNumber (v : jsval) : jsnum :=
  match v with
  | JNull => Num 0
  | JBool b => Num (if b then 1 else 0)
  | JNum q => Num q
  | JStr _ | JArr _ => ToNumber_text v
  | JObj _ | JObjectCtor | JObjectProto => NaN
  end.

(** [typeof v === 'object'] on a value that is not falsy. *)
Definition is_object (v : jsval) : bool :=
  match v with
  | JArr _ | JObj _ | JObjectProto => true
  | _ => false
  end.

(** [v.key] for the keys the code reads ([title], [type], [project],
    [priority], [description], [value], [confidence]): only a parsed
    object can have one of them. *)
Definition member (v : jsval) (key : string) : option jsval :=
  match v with
  | JObj ms => get_member key ms
  | _ => None
  end.

(** [x || d] on a possibly undefined member. *)
Definition or_else (x : option jsval) (d : jsval) : jsval :=
  match x with
  | Some v => if truthy v then v else d
  | None => d
  end.

Definition clamp (n : jsnum) : jsnum := js_max (Num 0) (js_min (Num 1) n).

(** The record [normalizeParameter] builds when it returns. *)
Definition normalizeParameter (param : option jsval) : ExtractedParameter :=
  match param with
  | None => empty_parameter
  | Some p =>
      if falsy p || negb (is_object p) then empty_parameter
      else Param (or_else (member p "value") JNull)
                 (clamp (ToNumber (or_else (member p "confidence") (JNum 0))))
                 ai_extracted
  end.

(** Whether [normalizeParameter] throws: [Math.min] converts
    [param.confidence || 0] to a number, which throws on a value that
    has no primitive. *)
Definition normalizeParameter_throws (param : option jsval) : bool :=
  match param with
  | None => false
  | Some p =>
      if falsy p || negb (is_object p) then false
      else negb (stringifies (or_else (member p "confidence") (JNum 0)))
  end.

(** A call of [normalizeParameter]. *)
Definition normalizeParameter_call (param : option jsval) : res ExtractedParameter :=
  if normalizeParameter_throws param then Throw else Ok (normalizeParameter param).

Definition fence_json : regex := Seq (Lit "```json") (Opt (Chr (ascii_of_nat 10))).
Definition fence : regex := Seq (Lit "```") (Opt (Chr (ascii_of_nat 10))).
Definition braces : regex := Seq (Chr "{") (Seq (Star true AnyChar) (Chr "}")).

Definition cleanResponse (response : string) : string :=
  let clean := trim response in
  let clean := remove_all false fence_json (String.length clean) clean in
  let clean := remove_all false fence (String.length clean) clean in
  match exec false braces clean with
  | Some jsonMatch => whole jsonMatch
  | None => clean
  end.

(** The body of the [try] of [parseAIResponse]: [JSON.parse] throws on a
    text that is not JSON, reading a member of [null] throws, and so does
    a call of [normalizeParameter] on a confidence without a primitive. *)
Definition parseAIResponse_try (response : string) : res ExtractedParameters :=
  parsed ← match Json.parse (cleanResponse response) with
           | Some v => Ok v
           | None => Throw
           end;
  match parsed with
  | JNull => Throw
  | _ =>
      title ← normalizeParameter_call (member parsed "title");
      type ← normalizeParameter_call (member parsed "type");
      project ← normalizeParameter_call (member parsed "project");
      priority ← normalizeParameter_call (member parsed "priority");
      description ← normalizeParameter_call (member parsed "description");
      mret (Params title type project priority description)
  end.

Definition parseAIResponse (response : string) : ExtractedParameters :=
  match parseAIResponse_try response with
  | Ok extracted => extracted
  | Throw => createEmptyExtraction
  end.

(** *** extractParameters *)

(** [!response] on the content of the completion. *)
Definition no_response (content : option string) : bool :=
  match content with
  | Some s => String.eqb s ""
  | None => true
  end.

Definition supplement (extracted fallback : ExtractedParameters) : ExtractedParameters :=
  let extracted :=
    if falsy (value (title extracted)) && truthy (value (title fallback))
    then Params (title fallback) (type extracted) (project extracted)
                (priority extracted) (description extracted)
    else extracted in
  if falsy (value (description extracted)) && truthy (value (description fallback))
  then Params (title extracted) (type extracted) (project extracted)
              (priority extracted) (description fallback)
  else extracted.

(** A template literal over a value: the value is converted to a text,
    which throws when it has no primitive. *)
Definition template (v : jsval) : res unit :=
  if stringifies v then Ok tt else Throw.

(** [logExtractionResults]: the fields are visited in the order of the
    record, and the value of a field is written out when it is truthy. *)
Definition log_field (p : ExtractedParameter) : res unit :=
  if truthy (value p) then template (value p) else Ok tt.

Definition logExtractionResults (extracted : ExtractedParameters) : res unit :=
  _ ← log_field (title extracted);
  _ ← log_field (type extracted);
  _ ← log_field (project extracted);
  _ ← log_field (priority extracted);
  log_field (description extracted).

Definition extractParameters_try (ai : Completion) (userInput : string)
  : res ExtractedParameters :=
  content ← match ai with
            | CompletionThrows => Throw
            | CompletionContent c => Ok c
            end;
  response ← match content with
             | Some s => if no_response content then Throw else Ok s
             | None => Throw
             end;
  let extracted := parseAIResponse response in
  extracted ←
    (if (falsy (value (title extracted)) || falsy (value (description extracted)))
        && (includes userInput "Title:" || includes userInput "Description:")
     then fallback ← fallbackExtraction userInput;
          mret (supplement extracted fallback)
     else mret extracted);
  let extractedWithDefaults := applyDefaults extracted in
  _ ← logExtractionResults extractedWithDefaults;
  mret extractedWithDefaults.

Definition extractParameters_catch (userInput : string) : res ExtractedParameters :=
  fallback ← fallbackExtraction userInput;
  let fallbackWithDefaults := applyDefaults fallback in
  if truthy (value (title fallbackWithDefaults))
     || truthy (value (description fallbackWithDefaults))
  then mret fallbackWithDefaults
  else mret createDefaultExtraction.

Definition extractParameters (ai : Completion) (userInput : string)
  : res ExtractedParameters :=
  try_catch (extractParameters_try ai userInput) (extractParameters_catch userInput).

End Parsing.

(** *** validateExtractedParameters *)

Definition validTypes : list string := ["Bug"; "Task"; "Story"; "Epic"].
Definition validPriorities : list string := ["Lowest"; "Low"; "Medium"; "High"; "Highest"].

(** [xs.includes(v)] on an array of strings and any value. *)
Definition includes_value (xs : list string) (v : jsval) : bool :=
  match v with
  | JStr s => mem s xs
  | _ => false
  end.

Definition projectMapping_own : list (string * string) :=
  [("fv demo product", "FV Demo (Product)");
   ("demo product", "FV Demo (Product)");
   ("fv demo (product)", "FV Demo (Product)");
   ("dpd", "FV Demo (Product)");
   ("fv demo issues", "FV Demo (Issues)");
   ("demo issues", "FV Demo (Issues)");
   ("fv demo (issues)", "FV Demo (Issues)");
   ("demo", "FV Demo (Issues)");
   ("fvdemo", "FV Demo (Issues)");
   ("dpi", "FV Demo (Issues)");
   ("issues", "FV Demo (Issues)");
   ("fv engineering", "FV Engineering");
   ("engineering", "FV Engineering");
   ("eng", "FV Engineering");
   ("fv product", "FV Product");
   ("prod", "FV Product")].

Fixpoint assoc (key : string) (table : list (string * string)) : option string :=
  match table with
  | [] => None
  | (k, v) :: more => if String.eqb k key then Some v else assoc key more
  end.

(** [projectMapping[key]]: the table is an object literal, so a key that is
    not its own is looked up in [Object.prototype]. *)
Definition projectMapping (key : string) : option jsval :=
  match assoc key projectMapping_own with
  | Some name => Some (JStr name)
  | None =>
      if String.eqb key "constructor" then Some JObjectCtor
      else if String.eqb key "__proto__" then Some JObjectProto
      else None
  end.

Definition validFullNames : list string :=
  ["FV Demo (Product)"; "FV Demo (Issues)"; "FV Engineering"; "FV Product"].

Definition with_value (p : ExtractedParameter) (v : jsval) : ExtractedParameter :=
  Param v (confidence p) (source p).

(** The message about an invalid type or priority is a template literal
    over the value, see [template]. *)
Definition validate_type (p : ExtractedParameter) : res ExtractedParameter :=
  if truthy (value p) then
    if negb (includes_value validTypes (value p)) then
      _ ← template (value p);
      mret default_type
    else mret p
  else mret p.

Definition validate_priority (p : ExtractedParameter) : res ExtractedParameter :=
  if truthy (value p) then
    if negb (includes_value validPriorities (value p)) then
      _ ← template (value p);
      mret default_priority
    else mret p
  else mret p.

(** Calling [toLowerCase] on a value that is not a string throws. *)
Definition validate_project (p : ExtractedParameter) : res ExtractedParameter :=
  if truthy (value p) then
    match value p with
    | JStr s =>
        let normalizedProject := trim (toLowerCase s) in
        if truthy (or_else (projectMapping normalizedProject) JNull) then
          Ok (with_value p (or_else (projectMapping normalizedProject) JNull))
        else
          match find (fun name =>
                        String.eqb (toLowerCase name) normalizedProject
                        || String.eqb normalizedProject name) validFullNames with
          | Some matchingFullName => Ok (with_value p (JStr matchingFullName))
          | None =>
              if String.eqb normalizedProject "product" || String.eqb normalizedProject "fv"
              then Ok default_project
              else Ok default_project
          end
    | _ => Throw
    end
  else Ok p.

Definition validateExtractedParameters (extracted : ExtractedParameters)
  : res ExtractedParameters :=
  let validated := extracted in
  t ← validate_type (type validated);
  let validated :=
    Params (title validated) t (project validated)
           (priority validated) (description validated) in
  pr ← validate_priority (priority validated);
  let validated :=
    Params (title validated) (type validated) (project validated)
           pr (description validated) in
  p ← validate_project (project validated);
  mret (Params (title validated) (type validated) p
               (priority validated) (description validated)).

End AIParameterExtractor.

(** ** types.ts, as far as the code above and below uses it *)

Module Types.

(** [Partial<IssueData>]: a field that was never assigned is [None]. *)
Record IssueData : Type := MkIssueData {
  project : option jsval;
  issueType : option jsval;
  title : option jsval;
  description : option jsval;
  priority : option jsval
}.

Definition no_data : IssueData := MkIssueData None None None None None.

Inductive IssueCreationStep : Type :=
| DETECTING_INTENT
| AI_EXTRACTING
| ASKING_PROJECT
| ASKING_TYPE
| ASKING_TITLE
| ASKING_DESCRIPTION
| ASKING_PRIORITY
| CONFIRMING_DETAILS
| READY_TO_CREATE.

Definition step_eqb (a b : IssueCreationStep) : bool :=
  match a, b with
  | DETECTING_INTENT, DETECTING_INTENT
  | AI_EXTRACTING, AI_EXTRACTING
  | ASKING_PROJECT, ASKING_PROJECT
  | ASKING_TYPE, ASKING_TYPE
  | ASKING_TITLE, ASKING_TITLE
  | ASKING_DESCRIPTION, ASKING_DESCRIPTION
  | ASKING_PRIORITY, ASKING_PRIORITY
  | CONFIRMING_DETAILS, CONFIRMING_DETAILS
  | READY_TO_CREATE, READY_TO_CREATE => true
  | _, _ => false
  end.

Record ConversationState : Type := MkState {
  isCreatingIssue : bool;
  issueData : IssueData;
  currentStep : IssueCreationStep;
  hasAskedFor : gset string;
  extractedParameters : option AIParameterExtractor.ExtractedParameters;
  missingParameters : option (list string);
  pendingValidation : gset string
}.

(** The state [index.ts] creates for a request. *)
Definition initial_state : ConversationState :=
  MkState false no_data DETECTING_INTENT ∅ None None ∅.

End Types.

(** ** informationExtractor.ts *)

Module InformationExtractor.

Import Regex Types.

Definition normalizeIssueType (type : string) : string :=
  let normalized := toLowerCase type in
  if String.eqb normalized "bug" then "Bug"
  else if String.eqb normalized "task" then "Task"
  else if String.eqb normalized "story" then "Story"
  else if String.eqb normalized "epic" then "Epic"
  else capitalize type.

Definition normalizePriority (priority : string) : string :=
  let normalized := toLowerCase priority in
  if mem normalized ["lowest"; "very low"; "trivial"] then "Lowest"
  else if mem normalized ["low"; "minor"] then "Low"
  else if mem normalized ["medium"; "normal"; "standard"] then "Medium"
  else if mem normalized ["high"; "important"; "urgent"; "major"] then "High"
  else if mem normalized ["highest"; "critical"; "blocker"; "severe"] then "Highest"
  else capitalize priority.

(** *** extractExplicitInformation *)

Definition letters : list (nat * nat) := [(65, 90)].                 (* [A-Z] *)
Definition letters_digits : list (nat * nat) := [(65, 90); (48, 57)]. (* [A-Z0-9] *)

(** [A-Z]+ followed by the optional group (?: [A-Z0-9]* ), written
    [key] below *)
Definition project_key : regex :=
  Seq (Plus true (Class false letters)) (Opt (Star true (Class false letters_digits))).

Definition projectPatterns : list regex :=
  [ (* (?:project|in)\s+(key) *)
    Seq (Alt (Lit "project") (Lit "in")) (Seq (Plus true Space) (Group project_key));
    (* (key)\s+project *)
    Seq (Group project_key) (Seq (Plus true Space) (Lit "project")) ].

Definition a_article : regex := Opt (Seq (Chr "a") (Plus true Space)).   (* (?:a\s+)? *)

Definition typePatterns : list regex :=
  [ (* create\s+(?:a\s+)?(\w+) *)
    Seq (Lit "create") (Seq (Plus true Space) (Seq a_article (Group (Plus true Word))));
    (* new\s+(\w+) *)
    Seq (Lit "new") (Seq (Plus true Space) (Group (Plus true Word)));
    (* (?:report|log)\s+(?:a\s+)?(\w+) *)
    Seq (Alt (Lit "report") (Lit "log"))
        (Seq (Plus true Space) (Seq a_article (Group (Plus true Word)))) ].

Definition priorityPatterns : list regex :=
  [ (* \b(low|medium|high|critical)\s+priority\b *)
    Seq WordB (Seq (Group (Alts [Lit "low"; Lit "medium"; Lit "high"; Lit "critical"]))
                   (Seq (Plus true Space) (Seq (Lit "priority") WordB)));
    (* priority\s+(?:is\s+|of\s+)?(\w+) *)
    Seq (Lit "priority")
        (Seq (Plus true Space)
             (Seq (Opt (Alt (Seq (Lit "is") (Plus true Space)) (Seq (Lit "of") (Plus true Space))))
                  (Group (Plus true Word))));
    (* \b(urgent|critical|important)\b *)
    Seq WordB (Seq (Group (Alts [Lit "urgent"; Lit "critical"; Lit "important"])) WordB) ].

(** A double quote, one or more characters other than a double quote
    (captured), a double quote. *)
Definition quoted : regex :=
  Seq (Chr dquote) (Seq (Group (Plus true (Class true [(34, 34)]))) (Chr dquote)).

(** [match[1]]; reading it when the group took no part throws. *)
Definition capture (mt : rmatch) : res string :=
  match group1 mt with
  | Some g => Ok g
  | None => Throw
  end.

Fixpoint project_loop (patterns : list regex) (userInput : string) : res (option string) :=
  match patterns with
  | [] => Ok None
  | pattern :: more =>
      match exec true pattern userInput with
      | Some mt =>
          g ← capture mt;
          if (String.length g <=? 10)%nat then Ok (Some (toUpperCase g))
          else project_loop more userInput
      | None => project_loop more userInput
      end
  end.

Fixpoint type_loop (patterns : list regex) (userInput : string) : res (option string) :=
  match patterns with
  | [] => Ok None
  | pattern :: more =>
      match exec true pattern userInput with
      | Some mt =>
          g ← capture mt;
          let type := toLowerCase g in
          if mem type ["bug"; "task"; "story"; "epic"; "issue"; "ticket"] then
            if String.eqb type "issue" || String.eqb type "ticket" then Ok None
            else Ok (Some (normalizeIssueType type))
          else type_loop more userInput
      | None => type_loop more userInput
      end
  end.

Fixpoint priority_loop (patterns : list regex) (userInput : string) : res (option string) :=
  match patterns with
  | [] => Ok None
  | pattern :: more =>
      match exec true pattern userInput with
      | Some mt =>
          g ← capture mt;
          Ok (Some (normalizePriority (toLowerCase g)))
      | None => priority_loop more userInput
      end
  end.

Definition quoted_title (userInput : string) : res (option string) :=
  match exec false quoted userInput with
  | Some quotedMatch => g ← capture quotedMatch; Ok (Some g)
  | None => Ok None
  end.

Definition extractExplicitInformation (userInput : string) : res IssueData :=
  p ← project_loop projectPatterns userInput;
  t ← type_loop typePatterns userInput;
  pr ← priority_loop priorityPatterns userInput;
  ti ← quoted_title userInput;
  mret (MkIssueData (JStr <$> p) (JStr <$> t) (JStr <$> ti) None (JStr <$> pr)).

(** *** The intent probes *)

Definition chatKeywords : list string :=
  ["hello"; "hi"; "help"; "what can you do"; "how do you work";
   "what are your capabilities"; "tell me about"; "explain";
   "how to"; "what is"; "who are you"; "what are you"].

Definition detectsChatIntent (userInput : string) : bool :=
  let lowerInput := toLowerCase userInput in
  let hasExplicitChatKeyword := includes_any lowerInput chatKeywords in
  let isQuestion :=
    includes lowerInput "?"
    && negb (includes lowerInput "issue")
    && negb (includes lowerInput "ticket")
    && negb (includes lowerInput "bug")
    && negb (includes lowerInput "task")
    && negb (includes lowerInput "story")
    && negb (includes lowerInput "epic") in
  hasExplicitChatKeyword || isQuestion.

Definition problemIndicators : list string :=
  ["not working"; "broken"; "error"; "issue with"; "problem with";
   "unable to"; "can't"; "cannot"; "fails to"; "doesn't work";
   "bug in"; "issue in"; "problem in"].

Definition featureIndicators : list string :=
  ["need"; "want"; "would like"; "should have"; "missing";
   "add feature"; "new feature"; "enhancement"; "improvement"].

Definition detectsIssuePattern (userInput : string) : bool :=
  let lowerInput := toLowerCase userInput in
  let hasTitleDescFormat :=
    includes lowerInput "title:"
    && (includes lowerInput "description:" || includes lowerInput "issue description:") in
  let hasProblemIndicator := includes_any lowerInput problemIndicators in
  let hasFeatureIndicator := includes_any lowerInput featureIndicators in
  hasTitleDescFormat || hasProblemIndicator || hasFeatureIndicator.

Definition creationKeywords : list string :=
  ["create"; "new"; "make"; "add"; "report"; "log"; "submit"].

Definition issueKeywords : list string :=
  ["issue"; "ticket"; "bug"; "task"; "story"; "epic"; "problem"].

Definition detectsIssueCreationIntent (userInput : string) : bool :=
  let lowerInput := toLowerCase userInput in
  let hasCreationKeyword := includes_any lowerInput creationKeywords in
  let hasIssueKeyword := includes_any lowerInput issueKeywords in
  let hasIssuePattern := detectsIssuePattern userInput in
  (hasCreationKeyword && hasIssueKeyword) || hasIssuePattern.

Definition detectsSearchIntent (userInput : string) : bool :=
  let lowerInput := toLowerCase userInput in
  (includes lowerInput "search" || includes lowerInput "find")
  && (includes lowerInput "issue" || includes lowerInput "ticket")
  && negb (detectsIssueCreationIntent userInput).

(** search|find|for|issues?|tickets? *)
Definition search_words : regex :=
  Alts [Lit "search"; Lit "find"; Lit "for";
        Seq (Lit "issue") (Opt (Chr "s")); Seq (Lit "ticket") (Opt (Chr "s"))].

Definition extractSearchQuery (userInput : string) : string :=
  trim (remove_all true search_words (String.length userInput) userInput).

(** *** The per-field readers of the traditional flow *)

(** The first entry, in the order of the table, whose key occurs in the
    text: [for (const [key, value] of Object.entries(table))]. *)
Fixpoint first_included (table : list (string * string)) (lowerInput : string)
  : option string :=
  match table with
  | [] => None
  | (key, value) :: more =>
      if includes lowerInput key then Some value else first_included more lowerInput
  end.

Definition responseProjectMapping : list (string * string) :=
  [("demo", "FV Demo (Issues)");
   ("fvdemo", "FV Demo (Issues)");
   ("fv demo", "FV Demo (Issues)");
   ("demo issues", "FV Demo (Issues)");
   ("issues", "FV Demo (Issues)");
   ("dpi", "FV Demo (Issues)");
   ("demo product", "FV Demo (Product)");
   ("fv demo product", "FV Demo (Product)");
   ("product demo", "FV Demo (Product)");
   ("dpd", "FV Demo (Product)");
   ("engineering", "FV Engineering");
   ("eng", "FV Engineering");
   ("fv engineering", "FV Engineering");
   ("fv eng", "FV Engineering");
   ("product", "FV Product");
   ("fv product", "FV Product");
   ("prod", "FV Product")].

Definition fullProjectNames : list string :=
  ["FV Product"; "FV Engineering"; "FV Demo (Issues)"; "FV Demo (Product)"].

Definition legacyMapping : list (string * string) :=
  [("DEMO", "FV Demo (Issues)");
   ("DPI", "FV Demo (Issues)");
   ("DPD", "FV Demo (Product)");
   ("ENG", "FV Engineering");
   ("PROD", "FV Product")].

(** \b ( [A-Z]+ [A-Z0-9]* ) \b, without the [i] flag *)
Definition legacy_key : regex :=
  Seq WordB (Seq (Group (Seq (Plus true (Class false letters))
                             (Star true (Class false letters_digits)))) WordB).

Definition extractProjectFromResponse (userInput : string) : res (option string) :=
  let lowerInput := trim (toLowerCase userInput) in
  match first_included responseProjectMapping lowerInput with
  | Some value => Ok (Some value)
  | None =>
      match find (fun projectName => includes lowerInput (toLowerCase projectName))
                 fullProjectNames with
      | Some projectName => Ok (Some projectName)
      | None =>
          if includes lowerInput "fv product" || includes lowerInput "fanvoice product"
          then Ok (Some "FV Product")
          else if includes lowerInput "fv engineering"
                  || includes lowerInput "fanvoice engineering"
          then Ok (Some "FV Engineering")
          else if includes lowerInput "fv demo" && includes lowerInput "product"
          then Ok (Some "FV Demo (Product)")
          else if includes lowerInput "fv demo"
                  && (includes lowerInput "issues" || negb (includes lowerInput "product"))
          then Ok (Some "FV Demo (Issues)")
          else
            match exec false legacy_key userInput with
            | Some projectMatch =>
                g ← capture projectMatch;
                let key := toUpperCase g in
                match AIParameterExtractor.assoc key legacyMapping with
                | Some name => Ok (Some name)
                | None => Ok (Some key)
                end
            | None => Ok None
            end
      end
  end.

Definition typeMapping : list (string * string) :=
  [("bug", "Bug"); ("task", "Task"); ("story", "Story"); ("epic", "Epic")].

Definition extractIssueTypeFromResponse (userInput : string) : option string :=
  first_included typeMapping (toLowerCase userInput).

Definition priorityMapping : list (string * string) :=
  [("lowest", "Lowest"); ("very low", "Lowest"); ("trivial", "Lowest");
   ("low", "Low"); ("minor", "Low");
   ("medium", "Medium"); ("normal", "Medium"); ("standard", "Medium");
   ("high", "High"); ("important", "High"); ("urgent", "High"); ("major", "High");
   ("highest", "Highest"); ("critical", "Highest"); ("blocker", "Highest");
   ("severe", "Highest")].

Definition extractPriorityFromResponse (userInput : string) : option string :=
  first_included priorityMapping (toLowerCase userInput).

(** [userInput.trim().length > 5]; the length is that of ECMAScript on
    ASCII text. *)
Definition extractTitleFromResponse (userInput : string) : option string :=
  if (5 <? String.length (trim userInput))%nat then Some (trim userInput) else None.

Definition extractDescriptionFromResponse (userInput : string) : string :=
  let lowerInput := trim (toLowerCase userInput) in
  if String.eqb lowerInput "skip" || String.eqb lowerInput "none"
     || String.eqb lowerInput "no description"
  then ""
  else trim userInput.

End InformationExtractor.

(** ** conversationManager.ts *)

Module ConversationManager.

Import Types.
Module AI := AIParameterExtractor.
Module IE := InformationExtractor.

Inductive Action : Type :=
| continue
| create_issue
| search
| cancel
| regular_chat
| error.

Record Outcome : Type := MkOutcome {
  action : Action;
  message : option string;
  searchQuery : option string
}.

(** What [IssueCreationFlow.processResponse] returns. *)
Record StepResult : Type := MkStepResult {
  success : bool;
  result_value : option string;
  errorMessage : option string
}.

(** Modelled from the spec: [IssueCreationFlow.resetState] lives in
    [issueCreationFlow.ts], which is not part of the sources at hand.  The
    specification says that it clears [isCreatingIssue], [currentStep],
    [issueData], [hasAskedFor] and the extraction results back to their
    initial values; [pendingValidation] is not named and is kept. *)
Definition resetState (state : ConversationState) : ConversationState :=
  MkState false no_data DETECTING_INTENT ∅ None None (pendingValidation state).

Definition set_step (state : ConversationState) (step : IssueCreationStep) : ConversationState :=
  MkState (isCreatingIssue state) (issueData state) step (hasAskedFor state)
          (extractedParameters state) (missingParameters state) (pendingValidation state).

Definition set_asked (state : ConversationState) (asked : gset string) : ConversationState :=
  MkState (isCreatingIssue state) (issueData state) (currentStep state) asked
          (extractedParameters state) (missingParameters state) (pendingValidation state).

Definition markStepAsAsked (step : IssueCreationStep) (state : ConversationState)
  : ConversationState :=
  match step with
  | ASKING_PROJECT => set_asked state (hasAskedFor state ∪ {["project"]})
  | ASKING_TYPE => set_asked state (hasAskedFor state ∪ {["type"]})
  | ASKING_TITLE => set_asked state (hasAskedFor state ∪ {["title"]})
  | ASKING_DESCRIPTION => set_asked state (hasAskedFor state ∪ {["description"]})
  | ASKING_PRIORITY => set_asked state (hasAskedFor state ∪ {["priority"]})
  | _ => state
  end.

(** [if (v) data.field = v]. *)
Definition assign (v : jsval) (old : option jsval) : option jsval :=
  if truthy v then Some v else old.

Definition convertExtractedToIssueData
    (extracted : AI.ExtractedParameters) (state : ConversationState) : ConversationState :=
  let d := issueData state in
  let d := MkIssueData (project d) (issueType d) (assign (AI.value (AI.title extracted)) (title d))
                       (description d) (priority d) in
  let d := MkIssueData (project d) (assign (AI.value (AI.type extracted)) (issueType d)) (title d)
                       (description d) (priority d) in
  let d := MkIssueData (assign (AI.value (AI.project extracted)) (project d)) (issueType d) (title d)
                       (description d) (priority d) in
  let d := MkIssueData (project d) (issueType d) (title d)
                       (description d) (assign (AI.value (AI.priority extracted)) (priority d)) in
  let d := MkIssueData (project d) (issueType d) (title d)
                       (assign (AI.value (AI.description extracted)) (description d)) (priority d) in
  MkState (isCreatingIssue state) d (currentStep state) (hasAskedFor state)
          (extractedParameters state) (missingParameters state) (pendingValidation state).

Definition cancelled_message : string :=
  "No problem! Issue creation has been cancelled. Let me know if you need help with anything else.".

Definition missing_message (missingRequired : list string) : string :=
  "❌ Missing required information: " +:+ join " and " missingRequired
  +:+ ". Please provide both a title and description in your request.".

Definition confirm_message : string :=
  "Please confirm by saying 'yes' to create the issue, or 'no' to cancel.".

Section Flow.

(** The run-time conversion of texts to numbers, see [AI.ToNumber]. *)
Variable ToNumber_text : jsval -> jsnum.

(** The methods of [IssueCreationFlow] (in [issueCreationFlow.ts], not
    part of the sources at hand) that the manager calls besides
    [resetState]. *)
Variable checkForCancellation : string -> bool.
Variable startIssueCreation : string -> ConversationState -> ConversationState.
Variable determineNextStep : ConversationState -> IssueCreationStep.
Variable getQuestionForStep : IssueCreationStep -> string.
Variable processResponse :
  string -> IssueCreationStep -> ConversationState -> StepResult * ConversationState.

(** The body of the [try] of [startIssueCreationWithAI], run on the
    state in which creation has been switched on. *)
Definition startIssueCreationWithAI_try
    (ai : AI.Completion) (userInput : string) (state : ConversationState)
  : res (Outcome * ConversationState) :=
  extracted ← AI.extractParameters ToNumber_text ai userInput;
  validated ← AI.validateExtractedParameters extracted;
  let validation := AI.validateRequiredParameters validated (Num (6 # 10)) in
  if negb (AI.isValid validation) then
    mret (MkOutcome error (Some (missing_message (AI.missingRequired validation))) None,
          resetState state)
  else
    let state := convertExtractedToIssueData validated state in
    let state :=
      MkState (isCreatingIssue state) (issueData state) (currentStep state)
              (hasAskedFor state) (Some validated) (missingParameters state)
              (pendingValidation state) in
    mret (MkOutcome create_issue None None, state).

(** The [catch] of [startIssueCreationWithAI]: the traditional flow.  A
    throw can only come from the extraction or the validation, before
    the state is touched again. *)
Definition startIssueCreationWithAI_catch
    (userInput : string) (state : ConversationState) : Outcome * ConversationState :=
  let state := startIssueCreation userInput state in
  let nextStep := determineNextStep state in
  let question := getQuestionForStep nextStep in
  let state := set_step state nextStep in
  let state := markStepAsAsked nextStep state in
  (MkOutcome continue (Some question) None, state).

Definition startIssueCreationWithAI
    (ai : AI.Completion) (userInput : string) (state : ConversationState)
  : Outcome * ConversationState :=
  let state :=
    MkState true (issueData state) AI_EXTRACTING (hasAskedFor state)
            (extractedParameters state) (missingParameters state)
            (pendingValidation state) in
  match startIssueCreationWithAI_try ai userInput state with
  | Ok r => r
  | Throw => startIssueCreationWithAI_catch userInput state
  end.

Definition is_some {A : Type} (o : option A) : bool :=
  match o with Some _ => true | None => false end.

(** [m || "Please try again."]. *)
Definition or_try_again (m : option string) : string :=
  match m with
  | Some s => if String.eqb s "" then "Please try again." else s
  | None => "Please try again."
  end.

Definition handleIssueCreationFlow (userInput : string) (state : ConversationState)
  : Outcome * ConversationState :=
  if checkForCancellation userInput then
    (MkOutcome cancel (Some cancelled_message) None, resetState state)
  else if step_eqb (currentStep state) CONFIRMING_DETAILS
          && is_some (extractedParameters state) then
    let lowerInput := toLowerCase userInput in
    if includes lowerInput "yes" || includes lowerInput "confirm"
       || includes lowerInput "create" then
      (MkOutcome create_issue None None, state)
    else if includes lowerInput "no" || includes lowerInput "cancel" then
      (MkOutcome cancel (Some cancelled_message) None, resetState state)
    else
      (MkOutcome continue (Some confirm_message) None, state)
  else
    let '(result, state) := processResponse userInput (currentStep state) state in
    if negb (success result) then
      (MkOutcome continue (Some (or_try_again (errorMessage result))) None, state)
    else
      let confirming := step_eqb (currentStep state) CONFIRMING_DETAILS in
      if confirming && bool_decide (result_value result = Some "confirmed") then
        (MkOutcome create_issue None None, state)
      else if confirming && bool_decide (result_value result = Some "cancelled") then
        (MkOutcome cancel (Some cancelled_message) None, resetState state)
      else
        let nextStep := determineNextStep state in
        match nextStep with
        | CONFIRMING_DETAILS =>
            (MkOutcome continue (Some (getQuestionForStep nextStep)) None,
             set_step state nextStep)
        | READY_TO_CREATE => (MkOutcome create_issue None None, state)
        | _ =>
            (MkOutcome continue (Some (getQuestionForStep nextStep)) None,
             markStepAsAsked nextStep (set_step state nextStep))
        end.

Definition processUserInput
    (ai : AI.Completion) (userInput : string) (state : ConversationState)
  : Outcome * ConversationState :=
  if isCreatingIssue state then handleIssueCreationFlow userInput state
  else if IE.detectsSearchIntent userInput then
    (MkOutcome search None (Some (IE.extractSearchQuery userInput)), state)
  else if IE.detectsChatIntent userInput then
    (MkOutcome regular_chat None None, state)
  else startIssueCreationWithAI ai userInput state.

End Flow.

End ConversationManager.

(** ** index.ts: the request check *)

Module Index.

Record RequestCheck : Type := MkRequestCheck {
  isValid : bool;
  check_error : option string;
  prompt : option string
}.

Definition rejected (message : string) : RequestCheck :=
  MkRequestCheck false (Some message) None.

(** [validateRequest(body)]; a missing body is [None].  Reading [prompt]
    off a body that is not an object gives [undefined].  The messages have
    the word prompt in double quotes, written here with [dq].  The length
    of the prompt is that of ECMAScript on ASCII text. *)
Definition validateRequest (body : option jsval) : RequestCheck :=
  match body with
  | None => rejected "Request body is required"
  | Some b =>
      if falsy b then rejected "Request body is required" else
      match AIParameterExtractor.member b "prompt" with
      | None => rejected (dq "A 'prompt' field is required in the request body")
      | Some p =>
          if falsy p then rejected (dq "A 'prompt' field is required in the request body")
          else
            match p with
            | JStr text =>
                if Nat.eqb (String.length (trim text)) 0
                then rejected (dq "The 'prompt' field cannot be empty")
                else if (5000 <? String.length text)%nat
                then rejected (dq "The 'prompt' field cannot exceed 5000 characters")
                else MkRequestCheck true None (Some (trim text))
            | _ => rejected (dq "The 'prompt' field must be a string")
            end
      end
  end.

End Index.

(** ** zapierService.ts: reading a reply that is not JSON *)

Module ZapierService.

Import Regex.

Record TextResult : Type := MkTextResult {
  success : bool;
  key : option string;
  url : option string;
  response : string;
  result_error : option string
}.

(** [A-Z]+-\d+ *)
Definition issue_key : regex :=
  Seq (Plus true (Class false [(65, 90)]))
      (Seq (Chr "-") (Plus true (Class false [(48, 57)]))).

(** https?:// then one or more characters that are neither white space nor
    a double quote, then browse/ and an issue key; all of it captured *)
Definition issue_url : regex :=
  Group (Seq (Lit "http") (Seq (Opt (Chr "s")) (Seq (Lit "://")
    (Seq (Plus true (Class true ((34, 34) :: space_ranges)))
         (Seq (Lit "browse/") issue_key))))).

Definition status_success : string := dq "'status':'SUCCESS'".
Definition status_failed : string := dq "'status':'FAILED'".

(** [parseTextResponse(responseText)]; nothing in its [try] can throw on a
    text. *)
Definition parseTextResponse (responseText : string) : TextResult :=
  let hasSuccess :=
    includes (toLowerCase responseText) "success"
    || includes responseText status_success
    || includes (toLowerCase responseText) "created" in
  let hasFailure :=
    includes (toLowerCase responseText) "error"
    || includes (toLowerCase responseText) "failed"
    || includes responseText status_failed
    || includes (toLowerCase responseText) "unable" in
  let issueKey :=
    match exec false (Group issue_key) responseText with
    | Some issueKeyMatch => group1 issueKeyMatch
    | None => None
    end in
  let issueUrl :=
    match exec false issue_url responseText with
    | Some urlMatch => group1 urlMatch
    | None => None
    end in
  let success :=
    (hasSuccess || match issueKey with Some _ => true | None => false end)
    && negb hasFailure in
  MkTextResult success issueKey issueUrl
    (if success then
       "Text parsing detected successful creation"
       +:+ match issueKey with
           | Some k => if String.eqb k "" then "" else " of " +:+ k
           | None => ""
           end
     else "Text parsing could not confirm successful creation")
    (if hasFailure then Some "Text parsing detected failure indicators" else None).

End ZapierService.

(** ** Predicates of the specification and sample collaborators *)

Module Spec.

Import Types.
Module AI := AIParameterExtractor.

(** The invariant of the data model: a null value has confidence 0. *)
Definition field_invariant (p : AI.ExtractedParameter) : Prop :=
  AI.value p = JNull -> is_zero (AI.confidence p) = true.

Definition fields_invariant (e : AI.ExtractedParameters) : Prop :=
  field_invariant (AI.title e) /\ field_invariant (AI.type e)
  /\ field_invariant (AI.project e) /\ field_invariant (AI.priority e)
  /\ field_invariant (AI.description e).

(** A confidence in the unit interval. *)
Definition unit_interval (n : jsnum) : Prop :=
  match n with
  | Num q => (0 <= q)%Q /\ (q <= 1)%Q
  | NaN => False
  end.

(** The shape of a field read from a completion. *)
Definition parsed_shape (p : AI.ExtractedParameter) : Prop :=
  AI.source p = AI.ai_extracted
  /\ (AI.value p = JNull \/ truthy (AI.value p) = true)
  /\ (AI.confidence p = NaN \/ unit_interval (AI.confidence p)).

(** An extraction whose values [logExtractionResults] can write out. *)
Definition logged (e : AI.ExtractedParameters) : Prop :=
  AI.log_field (AI.title e) = Ok tt /\ AI.log_field (AI.type e) = Ok tt
  /\ AI.log_field (AI.project e) = Ok tt /\ AI.log_field (AI.priority e) = Ok tt
  /\ AI.log_field (AI.description e) = Ok tt.

Definition types_vocabulary : list string := ["Bug"; "Task"; "Story"; "Epic"].
Definition priorities_vocabulary : list string :=
  ["Lowest"; "Low"; "Medium"; "High"; "Highest"].

(** The words the normalisation helpers know, in lower case. *)
Definition type_words : list string := ["bug"; "task"; "story"; "epic"].

Definition priority_words : list string :=
  ["lowest"; "very low"; "trivial"; "low"; "minor"; "medium"; "normal"; "standard";
   "high"; "important"; "urgent"; "major"; "highest"; "critical"; "blocker"; "severe"].

(** The value of each word the normalisation helpers know. *)
Definition known_types : list (string * string) :=
  [("bug", "Bug"); ("task", "Task"); ("story", "Story"); ("epic", "Epic")].

Definition known_priorities : list (string * string) :=
  [("lowest", "Lowest"); ("very low", "Lowest"); ("trivial", "Lowest");
   ("low", "Low"); ("minor", "Low");
   ("medium", "Medium"); ("normal", "Medium"); ("standard", "Medium");
   ("high", "High"); ("important", "High"); ("urgent", "High"); ("major", "High");
   ("highest", "Highest"); ("critical", "Highest"); ("blocker", "Highest");
   ("severe", "Highest")].

(** The field a step of the traditional flow asks for. *)
Definition asked_field (step : IssueCreationStep) : option string :=
  match step with
  | ASKING_PROJECT => Some "project"
  | ASKING_TYPE => Some "type"
  | ASKING_TITLE => Some "title"
  | ASKING_DESCRIPTION => Some "description"
  | ASKING_PRIORITY => Some "priority"
  | _ => None
  end.

(** How the error message names the missing fields. *)
Definition named_fields (no_title no_description : bool) : string :=
  match no_title, no_description with
  | true, true => "title and description"
  | true, false => "title"
  | false, true => "description"
  | false, false => ""
  end.

(** A project the validator can leave behind: one of the canonical names,
    or one of the two members a lookup in an object literal can inherit. *)
Definition resolved_project (v : jsval) : Prop :=
  (exists name, v = JStr name /\ mem name AI.validFullNames = true)
  \/ v = JObjectCtor \/ v = JObjectProto.

(** The canonical all-default extraction, written out. *)
Definition canonical_default : AI.ExtractedParameters :=
  AI.Params (AI.Param JNull (Num 0) AI.ai_extracted)
            (AI.Param (JStr "Bug") (Num 1) AI.default_source)
            (AI.Param (JStr "FV Demo (Issues)") (Num 1) AI.default_source)
            (AI.Param (JStr "Medium") (Num 1) AI.default_source)
            (AI.Param JNull (Num 0) AI.ai_extracted).

(** An extraction with a given title, type or project and nothing else. *)
Definition with_title (p : AI.ExtractedParameter) (e : AI.ExtractedParameters) :=
  AI.Params p (AI.type e) (AI.project e) (AI.priority e) (AI.description e).
Definition with_type (p : AI.ExtractedParameter) (e : AI.ExtractedParameters) :=
  AI.Params (AI.title e) p (AI.project e) (AI.priority e) (AI.description e).
Definition with_project (p : AI.ExtractedParameter) (e : AI.ExtractedParameters) :=
  AI.Params (AI.title e) (AI.type e) p (AI.priority e) (AI.description e).
Definition with_description (p : AI.ExtractedParameter) (e : AI.ExtractedParameters) :=
  AI.Params (AI.title e) (AI.type e) (AI.project e) (AI.priority e) p.

(** Sample collaborators, used to run the conversation manager on concrete
    utterances. *)

Definition sample_ToNumber_text : jsval -> jsnum := fun _ => NaN.

(** Modelled from the spec: [IssueCreationFlow.checkForCancellation] is
    not part of the sources at hand; the specification describes it as a
    free-text match against cancel/stop/nevermind-style phrases. *)
Definition sample_checkForCancellation (userInput : string) : bool :=
  includes_any (toLowerCase userInput) ["cancel"; "stop"; "nevermind"; "never mind"].

Definition sample_startIssueCreation (userInput : string) (state : ConversationState)
  : ConversationState := state.
Definition sample_determineNextStep (state : ConversationState) : IssueCreationStep :=
  ASKING_PROJECT.
Definition sample_getQuestionForStep (step : IssueCreationStep) : string :=
  "Which project should this issue be created in?".
Definition sample_processResponse
    (userInput : string) (step : IssueCreationStep) (state : ConversationState)
  : ConversationManager.StepResult * ConversationState :=
  (ConversationManager.MkStepResult false None None, state).

End Spec.

(** * Properties *)

(** ** The matcher *)

Module RegexFacts.

Import Regex.

Definition reached (r : regex) (s s' : mstate) : Prop :=
  (is_Some (cap s) -> is_Some (cap s')) /\ (captures r = true -> is_Some (cap s')).

(** A successful match ends in a call of the continuation; a capture made
    on the way is still there, and a capturing pattern has made one. *)
Lemma m_reaches ci r :
  forall k s out, m ci r k s = Some out ->
    exists s', k s' = Some out /\ reached r s s'.
Proof.
  induction r as [ | c | neg rs | r1 IH1 r2 IH2 | r1 IH1 r2 IH2 | g r IH | r IH | r IH | | ];
    intros k s out H; cbn [m] in H.
  - exists s. split; [done|]. split; [auto|discriminate].
  - destruct (rest s) as [|a t]; [done|].
    destruct (chr_match ci c a); [|done].
    eexists; split; [exact H|]. split; [auto|discriminate].
  - destruct (rest s) as [|a t]; [done|].
    destruct (class_match ci neg rs a); [|done].
    eexists; split; [exact H|]. split; [auto|discriminate].
  - apply IH1 in H as (s1 & H & [K1 C1]).
    apply IH2 in H as (s2 & H & [K2 C2]).
    exists s2. split; [done|]. split; [tauto|].
    simpl. intros [?|?]%orb_true_iff; tauto.
  - destruct (m ci r1 k s) as [x|] eqn:E.
    + injection H as ->. apply IH1 in E as (s1 & E & [K1 C1]).
      exists s1. split; [done|]. split; [tauto|].
      simpl. intros [? ?]%andb_true_iff. tauto.
    + apply IH2 in H as (s2 & H & [K2 C2]).
      exists s2. split; [done|]. split; [tauto|].
      simpl. intros [? ?]%andb_true_iff. tauto.
  - revert H. generalize (S (String.length (rest s))) as fuel.
    intros fuel. revert s out.
    induction fuel as [|fuel IHf]; intros s out H; simpl in H.
    + exists s. split; [done|]. split; [auto|discriminate].
    + assert (Hiter : forall o,
        m ci r (fun s' => if (String.length (rest s') <? String.length (rest s))%nat
                          then star_loop g (m ci r) k fuel s' else None) s = Some o ->
        exists s', k s' = Some o /\ reached (Star g r) s s').
      { intros o Ho. apply IH in Ho as (s1 & Ho & [K1 _]).
        destruct (String.length (rest s1) <? String.length (rest s))%nat; [|done].
        apply IHf in Ho as (s2 & Ho & [K2 _]).
        exists s2. split; [done|]. split; [tauto|discriminate]. }
      destruct g.
      * match type of H with match ?X with _ => _ end = _ => destruct X as [x|] eqn:E end.
        -- injection H as ->. by apply Hiter.
        -- exists s. split; [done|]. split; [auto|discriminate].
      * destruct (k s) as [x|] eqn:E.
        -- injection H as ->. exists s. split; [done|]. split; [auto|discriminate].
        -- by apply Hiter.
  - apply IH in H as (s1 & H & _).
    eexists; split; [exact H|]. split; simpl; eauto.
  - destruct (m ci r Some s); [|done].
    exists s. split; [done|]. split; [auto|discriminate].
  - destruct (rest s); [|done].
    exists s. split; [done|]. split; [auto|discriminate].
  - destruct (xorb _ _); [|done].
    exists s. split; [done|]. split; [auto|discriminate].
Qed.

Lemma search_captures ci r pre p s mt :
  captures r = true -> search ci r pre p s = Some mt -> is_Some (group1 mt).
Proof.
  intros Hc. revert pre p. induction s as [|a t IH]; intros pre p H; simpl in H.
  - destruct (m ci r Some _) as [fin|] eqn:E; [|done].
    injection H as <-. simpl.
    apply m_reaches in E as (s' & E & [_ C]). injection E as ->. auto.
  - destruct (m ci r Some _) as [fin|] eqn:E.
    + injection H as <-. simpl.
      apply m_reaches in E as (s' & E & [_ C]). injection E as ->. auto.
    + eauto.
Qed.

(** [match[1]] is defined whenever a capturing pattern matches. *)
Lemma exec_captures ci r s mt :
  captures r = true -> exec ci r s = Some mt -> is_Some (group1 mt).
Proof. apply search_captures. Qed.

End RegexFacts.

(** ** The parameter extractor *)

Module ExtractorFacts.

Import Regex RegexFacts AIParameterExtractor Spec.

(** What a loop over capturing patterns returns: nothing, or a text that
    is not empty. *)
Lemma first_capture_returns patterns userInput :
  forallb captures patterns = true ->
  exists o, first_capture patterns userInput = Ok o
            /\ (forall v, o = Some v -> v <> "").
Proof.
  induction patterns as [|p more IH]; simpl; intros Hc.
  - exists None. split; [done|]. discriminate.
  - apply andb_true_iff in Hc as [Hp Hmore].
    destruct (exec true p userInput) as [mt|] eqn:E; [|auto].
    destruct (exec_captures _ _ _ _ Hp E) as [g ->].
    destruct (String.eqb (trim g) "") eqn:Hb; simpl; [auto|].
    eexists; split; [done|]. intros v [= <-].
    by apply String.eqb_neq.
Qed.

Lemma recovered_truthy o :
  (forall v, o = Some v -> v <> "") ->
  truthy (value (recovered o)) = match o with Some _ => true | None => false end.
Proof.
  destruct o as [v|]; simpl; [|done]. intros H.
  apply negb_true_iff, String.eqb_neq. by apply H.
Qed.

(** The lexical fallback never throws; a field it recovers is a text that
    is not empty, the other fields are empty. *)
Lemma fallbackExtraction_returns userInput :
  exists t d,
    fallbackExtraction userInput
    = Ok (Params (recovered t) empty_parameter empty_parameter empty_parameter (recovered d))
    /\ (forall v, t = Some v -> v <> "") /\ (forall v, d = Some v -> v <> "").
Proof.
  unfold fallbackExtraction.
  destruct (first_capture_returns titlePatterns userInput) as (t & -> & Ht); [done|].
  destruct (first_capture_returns descriptionPatterns userInput) as (d & -> & Hd); [done|].
  by exists t, d.
Qed.

Lemma extractParameters_catch_returns userInput :
  exists fallback,
    fallbackExtraction userInput = Ok fallback
    /\ extractParameters_catch userInput
       = Ok (if truthy (value (title fallback)) || truthy (value (description fallback))
             then applyDefaults fallback else createDefaultExtraction).
Proof.
  destruct (fallbackExtraction_returns userInput) as (t & d & E & _ & _).
  eexists. split; [exact E|].
  unfold extractParameters_catch. rewrite E. simpl.
  by destruct (truthy (value (recovered t)) || truthy (value (recovered d))).
Qed.

(** C1. [extractParameters] returns an extraction for every input text and
    every behaviour of the completion call.  When its [try] block throws,
    the result is that of the lexical fallback with the defaults applied
    if the fallback recovered a title or a description, and otherwise the
    canonical all-default extraction: type Bug, project FV Demo (Issues),
    priority Medium, each with confidence 1 and source default, and a null
    title and description with confidence 0. *)
Theorem extractParameters_never_throws
    (ToNumber_text : jsval -> jsnum) (ai : Completion) (userInput : string) :
  exists fallback result,
    fallbackExtraction userInput = Ok fallback
    /\ extractParameters ToNumber_text ai userInput = Ok result
    /\ (extractParameters_try ToNumber_text ai userInput = Throw ->
        result = (if truthy (value (title fallback)) || truthy (value (description fallback))
                  then applyDefaults fallback else createDefaultExtraction))
    /\ (extractParameters_try ToNumber_text ai userInput = Throw ->
        value (title fallback) = JNull -> value (description fallback) = JNull ->
        result = canonical_default).
Proof.
  destruct (extractParameters_catch_returns userInput) as (fallback & Hf & Hc).
  exists fallback. unfold extractParameters.
  destruct (extractParameters_try ToNumber_text ai userInput) as [r|] eqn:E; simpl.
  - exists r. repeat split; done.
  - eexists. split; [done|]. split; [exact Hc|]. split; [done|].
    intros _ Ht Hd. by rewrite Ht, Hd.
Qed.

Lemma extractParameters_never_throws_witness :
  extractParameters_try sample_ToNumber_text CompletionThrows "can you please create a new issue" = Throw
  /\ extractParameters sample_ToNumber_text CompletionThrows "can you please create a new issue"
     = Ok canonical_default.
Proof.
  split; [reflexivity|].
  destruct (extractParameters_never_throws sample_ToNumber_text CompletionThrows
              "can you please create a new issue") as (fb & r & Hf & Hr & _ & H).
  rewrite Hr. f_equal.
  vm_compute in Hf. injection Hf as <-.
  apply H; reflexivity.
Defined.


(** *** The required-field check *)

Lemma weak_iff t p :
  weak t p = true <-> falsy (value p) = true \/ js_lt (confidence p) t = true.
Proof. unfold weak. apply orb_true_iff. Qed.

Lemma falsy_string s : falsy (JStr s) = true <-> s = "".
Proof.
  unfold falsy. simpl. rewrite negb_involutive. apply String.eqb_eq.
Qed.

(** C2, as the code has it.  With any threshold, a required field is
    reported missing exactly when its value is falsy (null or the empty
    text, for a value of the declared type) or its confidence is strictly
    below the threshold, and the extraction is valid exactly when nothing
    is reported.  With the threshold 0.6: a null title is reported, a
    title with confidence 0.59 is reported, and a title that is a text
    with at least one character and has confidence exactly 0.6 is not. *)
Theorem validateRequiredParameters_reports (e : ExtractedParameters) (t : jsnum) :
  let v := validateRequiredParameters e t in
  ("title" ∈ missingRequired v
     <-> falsy (value (title e)) = true \/ js_lt (confidence (title e)) t = true)
  /\ ("description" ∈ missingRequired v
     <-> falsy (value (description e)) = true \/ js_lt (confidence (description e)) t = true)
  /\ (isValid v = true <-> missingRequired v = [])
  /\ falsy JNull = true
  /\ (forall s, falsy (JStr s) = true <-> s = "")
  /\ (forall c src,
        "title" ∈ missingRequired
          (validateRequiredParameters (with_title (Param JNull c src) e) required_threshold))
  /\ (forall x src,
        "title" ∈ missingRequired
          (validateRequiredParameters (with_title (Param x (Num (59 # 100)) src) e)
             required_threshold))
  /\ (forall a s src,
        "title" ∉ missingRequired
          (validateRequiredParameters
             (with_title (Param (JStr (String a s)) (Num (6 # 10)) src) e)
             required_threshold)).
Proof.
  cbv zeta. rewrite <- !weak_iff.
  split; [|split; [|split; [|split; [done|split; [apply falsy_string|]]]]].
  - unfold validateRequiredParameters.
    destruct (weak t (title e)), (weak t (description e)); simpl; set_solver.
  - unfold validateRequiredParameters.
    destruct (weak t (title e)), (weak t (description e)); simpl; set_solver.
  - unfold validateRequiredParameters.
    destruct (weak t (title e)), (weak t (description e)); simpl; done.
  - split; [|split].
    + intros c src. unfold validateRequiredParameters, with_title; simpl.
      destruct (weak _ (description e)); simpl; set_solver.
    + intros x src. unfold validateRequiredParameters, with_title; simpl.
      replace (weak required_threshold (Param x (Num (59 # 100)) src)) with true
        by (unfold weak; simpl; by rewrite orb_true_r).
      destruct (weak _ (description e)); simpl; set_solver.
    + intros a s src. unfold validateRequiredParameters, with_title; simpl.
      replace (weak required_threshold (Param (JStr (String a s)) (Num (6 # 10)) src))
        with false by reflexivity.
      destruct (weak _ (description e)); simpl; set_solver.
Qed.

(** C2, as stated, fails: an empty title with full confidence is reported
    missing although it is not null and its confidence is not below the
    threshold. *)
Lemma validateRequiredParameters_empty_title :
  let e := with_title (Param (JStr "") (Num 1) ai_extracted) createEmptyExtraction in
  "title" ∈ missingRequired (validateRequiredParameters e required_threshold)
  /\ value (title e) <> JNull
  /\ js_lt (confidence (title e)) required_threshold = false.
Proof. cbv zeta. split; [|split]; [vm_compute; set_solver|discriminate|reflexivity]. Qed.

(** *** applyDefaults *)

Lemma weak_false_value t p : weak t p = false -> truthy (value p) = true.
Proof.
  unfold weak, falsy. intros [H _]%orb_false_iff. by apply negb_false_iff.
Qed.

Lemma truthy_not_null x : truthy x = true -> x <> JNull.
Proof. by intros H ->. Qed.

Lemma applyDefaults_fields (e : ExtractedParameters) :
  applyDefaults e
  = Params (title e)
      (if weak defaulting_threshold (type e) then default_type else type e)
      (if weak defaulting_threshold (project e) then default_project else project e)
      (if weak defaulting_threshold (priority e) then default_priority else priority e)
      (description e).
Proof.
  destruct e as [ti ty pj pr de]. unfold applyDefaults.
  cbn [title type project priority description].
  destruct (weak defaulting_threshold ty); cbn [title type project priority description];
    destruct (weak defaulting_threshold pj); cbn [title type project priority description];
    destruct (weak defaulting_threshold pr); reflexivity.
Qed.

Lemma weak_settled t p d :
  weak t d = false -> weak t (if weak t p then d else p) = false.
Proof. intros Hd. destruct (weak t p) eqn:E; done. Qed.

(** C5, as the code has it.  [applyDefaults] is idempotent; it replaces
    type, project and priority by their defaults exactly when the value
    is falsy (null or the empty text) or the confidence is below 0.6,
    whatever the source of the field; it leaves title and description
    alone; afterwards type, project and priority are not null. *)
Theorem applyDefaults_idempotent (e : ExtractedParameters) :
  applyDefaults (applyDefaults e) = applyDefaults e
  /\ type (applyDefaults e)
     = (if weak defaulting_threshold (type e) then default_type else type e)
  /\ project (applyDefaults e)
     = (if weak defaulting_threshold (project e) then default_project else project e)
  /\ priority (applyDefaults e)
     = (if weak defaulting_threshold (priority e) then default_priority else priority e)
  /\ title (applyDefaults e) = title e
  /\ description (applyDefaults e) = description e
  /\ value (type (applyDefaults e)) <> JNull
  /\ value (project (applyDefaults e)) <> JNull
  /\ value (priority (applyDefaults e)) <> JNull.
Proof.
  assert (Hty := weak_settled defaulting_threshold (type e) default_type eq_refl).
  assert (Hpj := weak_settled defaulting_threshold (project e) default_project eq_refl).
  assert (Hpr := weak_settled defaulting_threshold (priority e) default_priority eq_refl).
  split.
  { rewrite (applyDefaults_fields (applyDefaults e)).
    rewrite (applyDefaults_fields e).
    cbn [title type project priority description].
    by rewrite Hty, Hpj, Hpr. }
  rewrite applyDefaults_fields. cbn [title type project priority description].
  repeat (split; [reflexivity|]).
  split; [|split]; apply truthy_not_null; eapply weak_false_value; eassumption.
Qed.

(** C5, as stated, fails: an empty type with full confidence is replaced
    by the default although it is not null and its confidence is not
    below 0.6. *)
Lemma applyDefaults_empty_type :
  let e := with_type (Param (JStr "") (Num 1) ai_extracted) createEmptyExtraction in
  type (applyDefaults e) = default_type
  /\ type e <> default_type
  /\ value (type e) <> JNull
  /\ js_lt (confidence (type e)) defaulting_threshold = false.
Proof. cbv zeta. repeat split; done. Qed.

(** *** The steps of the validator *)

Lemma validate_type_ok p q :
  validate_type p = Ok q ->
  q = (if truthy (value p) && negb (includes_value validTypes (value p))
       then default_type else p).
Proof.
  unfold validate_type, template. destruct (truthy (value p)); [|by intros [= <-]].
  destruct (negb _); [|by intros [= <-]].
  destruct (stringifies (value p)); [by intros [= <-]|discriminate].
Qed.

Lemma validate_priority_ok p q :
  validate_priority p = Ok q ->
  q = (if truthy (value p) && negb (includes_value validPriorities (value p))
       then default_priority else p).
Proof.
  unfold validate_priority, template. destruct (truthy (value p)); [|by intros [= <-]].
  destruct (negb _); [|by intros [= <-]].
  destruct (stringifies (value p)); [by intros [= <-]|discriminate].
Qed.

Lemma validateExtractedParameters_steps e :
  validateExtractedParameters e
  = (t ← validate_type (type e);
     pr ← validate_priority (priority e);
     p ← validate_project (project e);
     mret (Params (title e) t p pr (description e))).
Proof.
  unfold validateExtractedParameters.
  destruct (validate_type (type e)) as [t|]; [|done].
  cbn [mbind res_bind Err.bind title type project priority description].
  destruct (validate_priority (priority e)) as [pr|]; done.
Qed.

Lemma validateExtractedParameters_ok e v :
  validateExtractedParameters e = Ok v ->
  exists t pr p,
    validate_type (type e) = Ok t /\ validate_priority (priority e) = Ok pr
    /\ validate_project (project e) = Ok p
    /\ v = Params (title e) t p pr (description e).
Proof.
  rewrite validateExtractedParameters_steps.
  destruct (validate_type (type e)) as [t|]; [|done].
  destruct (validate_priority (priority e)) as [pr|]; [|done].
  destruct (validate_project (project e)) as [p|]; [|done].
  intros [= <-]. by exists t, pr, p.
Qed.

End ExtractorFacts.

(** ** Reading a completion *)

Module ParsingFacts.

Import AIParameterExtractor Spec ExtractorFacts.

Lemma clamp_range n : clamp n = NaN \/ unit_interval (clamp n).
Proof.
  destruct n as [|q]; [by left|right].
  unfold clamp, js_min, js_max.
  destruct (Qle_bool 1 q) eqn:H1.
  - simpl. split; [discriminate|apply Qle_refl].
  - destruct (Qle_bool q 0) eqn:H0; simpl.
    + split; [apply Qle_refl|discriminate].
    + split.
      * apply Qlt_le_weak, Qnot_le_lt. intros H. apply Qle_bool_iff in H. congruence.
      * apply Qlt_le_weak, Qnot_le_lt. intros H. apply Qle_bool_iff in H. congruence.
Qed.

Lemma or_else_null x : or_else x JNull = JNull \/ truthy (or_else x JNull) = true.
Proof.
  destruct x as [v|]; simpl; [|by left].
  destruct (truthy v) eqn:E; [by right|by left].
Qed.

Lemma empty_parameter_shape : parsed_shape empty_parameter.
Proof. split; [done|]. split; [by left|]. right. simpl. split; discriminate. Qed.

Lemma normalizeParameter_shape tn param : parsed_shape (normalizeParameter tn param).
Proof.
  unfold normalizeParameter. destruct param as [p|]; [|apply empty_parameter_shape].
  destruct (falsy p || negb (is_object p)); [apply empty_parameter_shape|].
  split; [done|]. split; [apply or_else_null|apply clamp_range].
Qed.

Lemma normalizeParameter_call_cases tn param :
  normalizeParameter_call tn param = Throw
  \/ normalizeParameter_call tn param = Ok (normalizeParameter tn param).
Proof.
  unfold normalizeParameter_call. destruct (normalizeParameter_throws param); auto.
Qed.

Lemma parseAIResponse_cases tn response :
  parseAIResponse tn response = createEmptyExtraction
  \/ exists parsed,
       parseAIResponse tn response
       = Params (normalizeParameter tn (member parsed "title"))
                (normalizeParameter tn (member parsed "type"))
                (normalizeParameter tn (member parsed "project"))
                (normalizeParameter tn (member parsed "priority"))
                (normalizeParameter tn (member parsed "description")).
Proof.
  unfold parseAIResponse, parseAIResponse_try.
  destruct (Json.parse (cleanResponse response)) as [parsed|]; [|by left].
  cbn [mbind res_bind Err.bind].
  assert (H : forall k : res ExtractedParameters,
    (k = Throw \/ k = Ok (Params (normalizeParameter tn (member parsed "title"))
                (normalizeParameter tn (member parsed "type"))
                (normalizeParameter tn (member parsed "project"))
                (normalizeParameter tn (member parsed "priority"))
                (normalizeParameter tn (member parsed "description")))) ->
    match k with Ok extracted => extracted | Throw => createEmptyExtraction end
    = createEmptyExtraction
    \/ exists parsed',
       match k with Ok extracted => extracted | Throw => createEmptyExtraction end
       = Params (normalizeParameter tn (member parsed' "title"))
                (normalizeParameter tn (member parsed' "type"))
                (normalizeParameter tn (member parsed' "project"))
                (normalizeParameter tn (member parsed' "priority"))
                (normalizeParameter tn (member parsed' "description"))).
  { intros k [->| ->]; [by left|right; by exists parsed]. }
  assert (K :
    (title ← normalizeParameter_call tn (member parsed "title");
     type ← normalizeParameter_call tn (member parsed "type");
     project ← normalizeParameter_call tn (member parsed "project");
     priority ← normalizeParameter_call tn (member parsed "priority");
     description ← normalizeParameter_call tn (member parsed "description");
     mret (Params title type project priority description)) = Throw
    \/ (title ← normalizeParameter_call tn (member parsed "title");
     type ← normalizeParameter_call tn (member parsed "type");
     project ← normalizeParameter_call tn (member parsed "project");
     priority ← normalizeParameter_call tn (member parsed "priority");
     description ← normalizeParameter_call tn (member parsed "description");
     mret (Params title type project priority description))
     = Ok (Params (normalizeParameter tn (member parsed "title"))
                (normalizeParameter tn (member parsed "type"))
                (normalizeParameter tn (member parsed "project"))
                (normalizeParameter tn (member parsed "priority"))
                (normalizeParameter tn (member parsed "description")))).
  { destruct (normalizeParameter_call_cases tn (member parsed "title")) as [-> | ->];
      [by left|].
    destruct (normalizeParameter_call_cases tn (member parsed "type")) as [-> | ->];
      [by left|].
    destruct (normalizeParameter_call_cases tn (member parsed "project")) as [-> | ->];
      [by left|].
    destruct (normalizeParameter_call_cases tn (member parsed "priority")) as [-> | ->];
      [by left|].
    destruct (normalizeParameter_call_cases tn (member parsed "description")) as [-> | ->];
      [by left|by right]. }
  destruct parsed; first [by left | exact (H _ K)].
Qed.

Lemma parseAIResponse_shape tn response :
  let e := parseAIResponse tn response in
  parsed_shape (title e) /\ parsed_shape (type e) /\ parsed_shape (project e)
  /\ parsed_shape (priority e) /\ parsed_shape (description e).
Proof.
  cbv zeta. destruct (parseAIResponse_cases tn response) as [-> | [parsed ->]];
    cbn [title type project priority description createEmptyExtraction];
    repeat split; first [apply empty_parameter_shape | apply normalizeParameter_shape].
Qed.

Lemma default_invariant p :
  value p <> JNull -> field_invariant p.
Proof. intros H E. done. Qed.

Lemma applyDefaults_invariant e : fields_invariant e -> fields_invariant (applyDefaults e).
Proof.
  intros (Hti & Hty & Hpj & Hpr & Hde).
  rewrite applyDefaults_fields. unfold fields_invariant.
  cbn [title type project priority description].
  repeat split; try done;
    match goal with |- field_invariant (if ?c then _ else _) => destruct c end;
    try done; by apply default_invariant.
Qed.

Lemma validate_project_invariant p q :
  field_invariant p -> validate_project p = Ok q -> field_invariant q.
Proof.
  unfold validate_project. intros Hp.
  destruct (truthy (value p)) eqn:Ht; [|by intros [= <-]].
  destruct (value p) as [| | |s| | | |] eqn:Hv; try done.
  destruct (truthy (or_else (projectMapping (trim (toLowerCase s))) JNull)) eqn:Hm.
  - intros [= <-]. apply default_invariant. simpl. by apply truthy_not_null.
  - destruct (find _ validFullNames).
    + intros [= <-]. by apply default_invariant.
    + destruct (_ || _); intros [= <-]; by apply default_invariant.
Qed.

Lemma validateExtractedParameters_invariant e v :
  fields_invariant e -> validateExtractedParameters e = Ok v -> fields_invariant v.
Proof.
  intros (Hti & Hty & Hpj & Hpr & Hde) H.
  apply validateExtractedParameters_ok in H as (t & pr & q & Et & Epr & E & ->).
  apply validate_type_ok in Et as ->. apply validate_priority_ok in Epr as ->.
  unfold fields_invariant. cbn [title type project priority description].
  repeat split; try done.
  - destruct (_ && _); [by apply default_invariant|done].
  - exact (validate_project_invariant _ _ Hpj E).
  - destruct (_ && _); [by apply default_invariant|done].
Qed.

Lemma recovered_invariant o : field_invariant (recovered o).
Proof. destruct o; done. Qed.

(** C4, as the code has it.  The fields the system builds itself satisfy
    the invariant (a null value has confidence 0): those of the empty and
    of the default extraction and those of the lexical fallback; and
    [applyDefaults] and [validateExtractedParameters] keep it.  A field
    read from a completion has source [ai_extracted], a value that is null
    or truthy, and a confidence that is NaN or within the unit interval;
    that confidence is the clamped [confidence] member of the answer
    whatever its [value] member is, so a null value does not force it
    to 0. *)
Theorem built_fields_keep_invariant
    (ToNumber_text : jsval -> jsnum) (userInput response : string)
    (e v : ExtractedParameters) (members : list (string * jsval)) :
  fields_invariant createEmptyExtraction
  /\ fields_invariant createDefaultExtraction
  /\ (exists fallback, fallbackExtraction userInput = Ok fallback /\ fields_invariant fallback)
  /\ (fields_invariant e -> fields_invariant (applyDefaults e))
  /\ (fields_invariant e -> validateExtractedParameters e = Ok v -> fields_invariant v)
  /\ (let r := parseAIResponse ToNumber_text response in
      parsed_shape (title r) /\ parsed_shape (type r) /\ parsed_shape (project r)
      /\ parsed_shape (priority r) /\ parsed_shape (description r))
  /\ confidence (normalizeParameter ToNumber_text (Some (JObj members)))
     = clamp (ToNumber ToNumber_text (or_else (get_member "confidence" members) (JNum 0))).
Proof.
  split; [by repeat split|]. split; [by repeat split|].
  split.
  { destruct (fallbackExtraction_returns userInput) as (t & d & E & _ & _).
    eexists. split; [exact E|].
    repeat split; try done; apply recovered_invariant. }
  split; [apply applyDefaults_invariant|].
  split; [apply validateExtractedParameters_invariant|].
  split; [apply parseAIResponse_shape|reflexivity].
Qed.

Lemma built_fields_keep_invariant_witness :
  let e := with_title (Param (JStr "Login broken") (Num (9 # 10)) ai_extracted)
             createEmptyExtraction in
  fields_invariant e
  /\ validateExtractedParameters e = Ok e
  /\ fields_invariant (applyDefaults e).
Proof.
  cbv zeta.
  assert (H : fields_invariant
                (with_title (Param (JStr "Login broken") (Num (9 # 10)) ai_extracted)
                   createEmptyExtraction)) by (by repeat split).
  split; [exact H|]. split; [reflexivity|].
  destruct (built_fields_keep_invariant sample_ToNumber_text "" ""
              (with_title (Param (JStr "Login broken") (Num (9 # 10)) ai_extracted)
                 createEmptyExtraction)
              (with_title (Param (JStr "Login broken") (Num (9 # 10)) ai_extracted)
                 createEmptyExtraction) [])
    as (_ & _ & _ & Ha & Hv & _).
  pose proof (Hv H eq_refl) as _.
  exact (Ha H).
Defined.

(** C4, as stated, fails: a completion that gives a null title with
    confidence 0.8 is read as a field with a null value and confidence
    0.8. *)
Lemma parseAIResponse_null_with_confidence :
  let r := parseAIResponse sample_ToNumber_text
             (dq "{'title':{'value':null,'confidence':0.8}}") in
  value (title r) = JNull
  /\ confidence (title r) = Num (4 # 5)
  /\ ~ field_invariant (title r).
Proof.
  cbv zeta. split; [reflexivity|]. split; [reflexivity|].
  intros H. specialize (H eq_refl). discriminate H.
Qed.

End ParsingFacts.

(** ** The validator *)

Module ValidatorFacts.

Import AIParameterExtractor Spec.

Lemma lower_char_not_upper c : is_upper (lower_char c) = false.
Proof. destruct c as [[] [] [] [] [] [] [] []]; reflexivity. Qed.

Lemma toLowerCase_no_upper s : has_upper (toLowerCase s) = false.
Proof.
  induction s as [|c t IH]; simpl; [done|].
  by rewrite lower_char_not_upper, IH.
Qed.

Lemma trimStart_no_upper s : has_upper s = false -> has_upper (trimStart s) = false.
Proof.
  induction s as [|c t IH]; simpl; [done|].
  intros [Hc Ht]%orb_false_iff.
  destruct (is_white c); [auto|]. simpl. by rewrite Hc, Ht.
Qed.

Lemma trimEnd_no_upper s : has_upper s = false -> has_upper (trimEnd s) = false.
Proof.
  induction s as [|c t IH]; simpl; [done|].
  intros [Hc Ht]%orb_false_iff. specialize (IH Ht).
  destruct (trimEnd t) as [|c' t'].
  - destruct (is_white c); simpl; [done|]. by rewrite Hc.
  - simpl in *. by rewrite Hc, IH.
Qed.

Lemma normalized_no_upper s : has_upper (trim (toLowerCase s)) = false.
Proof. apply trimEnd_no_upper, trimStart_no_upper, toLowerCase_no_upper. Qed.

(** X19.  A project name that is a text, is not empty and, once lower-cased
    and trimmed, is neither a key of the synonym table nor one of the two
    inherited keys becomes the default project. *)
Lemma validate_project_unmatched (p : ExtractedParameter) (s : string) :
  value p = JStr s -> s <> "" ->
  assoc (trim (toLowerCase s)) projectMapping_own = None ->
  trim (toLowerCase s) <> "constructor" ->
  trim (toLowerCase s) <> "__proto__" ->
  validate_project p = Ok default_project.
Proof.
  intros Hv Hs Ha Hc Hp. unfold validate_project. rewrite Hv.
  assert (Ht : truthy (JStr s) = true) by (by apply negb_true_iff, String.eqb_neq).
  rewrite Ht. unfold projectMapping. rewrite Ha.
  apply String.eqb_neq in Hc, Hp. rewrite Hc, Hp.
  pose proof (normalized_no_upper s) as Hu.
  set (n := trim (toLowerCase s)) in *. clearbody n.
  assert (Hn : forall name, has_upper name = true -> String.eqb n name = false).
  { intros name Hname. apply String.eqb_neq. intros ->. congruence. }
  assert (Hl : forall key name, assoc key projectMapping_own = Some name ->
                                String.eqb key n = false).
  { intros key name Hk. apply String.eqb_neq. intros ->. congruence. }
  cbn [or_else truthy find validFullNames].
  change (toLowerCase "FV Demo (Product)") with "fv demo (product)".
  change (toLowerCase "FV Demo (Issues)") with "fv demo (issues)".
  change (toLowerCase "FV Engineering") with "fv engineering".
  change (toLowerCase "FV Product") with "fv product".
  rewrite (Hl "fv demo (product)" _ eq_refl), (Hl "fv demo (issues)" _ eq_refl),
    (Hl "fv engineering" _ eq_refl), (Hl "fv product" _ eq_refl).
  rewrite !Hn by reflexivity. cbn [orb].
  by destruct (_ || _).
Qed.

Lemma validate_project_unmatched_witness :
  validate_project (Param (JStr "  Marketing ") (Num (9 # 10)) ai_extracted)
  = Ok default_project.
Proof.
  apply (validate_project_unmatched _ "  Marketing "); [reflexivity|done|reflexivity|done|done].
Defined.

(** C6.  The validator turns the project "eng" into FV Engineering and the
    bare tokens "product" and "fv" into the default project FV Demo
    (Issues) with confidence 1 and source default.  The project
    "constructor", which is no key of the synonym table, is not turned
    into the default: the lookup finds the member every object inherits
    under that key, and the value of the project becomes that member. *)
Theorem validate_project_resolution (c : jsnum) (src : Source) :
  validate_project (Param (JStr "eng") c src) = Ok (Param (JStr "FV Engineering") c src)
  /\ validate_project (Param (JStr "product") c src)
     = Ok (Param (JStr "FV Demo (Issues)") (Num 1) default_source)
  /\ validate_project (Param (JStr "fv") c src)
     = Ok (Param (JStr "FV Demo (Issues)") (Num 1) default_source)
  /\ validate_project (Param (JStr "constructor") c src) = Ok (Param JObjectCtor c src)
  /\ validateExtractedParameters
       (with_project (Param (JStr "constructor") c src) createDefaultExtraction)
     = Ok (with_project (Param JObjectCtor c src) createDefaultExtraction).
Proof. repeat split; reflexivity. Qed.

End ValidatorFacts.

(** ** The lexical extractor and the intent probes *)

Module LexicalFacts.

Import Types InformationExtractor Spec.

Lemma lower_upper_char c : lower_char (upper_char c) = lower_char c.
Proof. destruct c as [[] [] [] [] [] [] [] []]; reflexivity. Qed.

Lemma upper_upper_char c : upper_char (upper_char c) = upper_char c.
Proof. destruct c as [[] [] [] [] [] [] [] []]; reflexivity. Qed.

Lemma toLowerCase_capitalize s : toLowerCase (capitalize s) = toLowerCase s.
Proof. destruct s as [|c t]; simpl; [done|]. by rewrite lower_upper_char. Qed.

Lemma capitalize_capitalize s : capitalize (capitalize s) = capitalize s.
Proof. destruct s as [|c t]; simpl; [done|]. by rewrite upper_upper_char. Qed.

Lemma normalizeIssueType_cases x :
  if mem (toLowerCase x) type_words
  then mem (normalizeIssueType x) types_vocabulary = true
  else normalizeIssueType x = capitalize x.
Proof.
  unfold normalizeIssueType, type_words, mem. cbn [existsb].
  rewrite !(String.eqb_sym (toLowerCase x)).
  destruct (String.eqb "bug" _); [reflexivity|].
  destruct (String.eqb "task" _); [reflexivity|].
  destruct (String.eqb "story" _); [reflexivity|].
  destruct (String.eqb "epic" _); reflexivity.
Qed.

Lemma normalizeIssueType_idempotent x :
  normalizeIssueType (normalizeIssueType x) = normalizeIssueType x.
Proof.
  unfold normalizeIssueType at 2 3.
  destruct (String.eqb (toLowerCase x) "bug") eqn:E1; [reflexivity|].
  destruct (String.eqb (toLowerCase x) "task") eqn:E2; [reflexivity|].
  destruct (String.eqb (toLowerCase x) "story") eqn:E3; [reflexivity|].
  destruct (String.eqb (toLowerCase x) "epic") eqn:E4; [reflexivity|].
  unfold normalizeIssueType. rewrite toLowerCase_capitalize, E1, E2, E3, E4.
  apply capitalize_capitalize.
Qed.

Lemma normalizePriority_cases x :
  if mem (toLowerCase x) priority_words
  then mem (normalizePriority x) priorities_vocabulary = true
  else normalizePriority x = capitalize x.
Proof.
  change priority_words with
    (["lowest"; "very low"; "trivial"] ++ ["low"; "minor"]
     ++ ["medium"; "normal"; "standard"] ++ ["high"; "important"; "urgent"; "major"]
     ++ ["highest"; "critical"; "blocker"; "severe"])%list.
  unfold mem at 1. rewrite !existsb_app.
  unfold normalizePriority.
  fold (mem (toLowerCase x) ["lowest"; "very low"; "trivial"]).
  fold (mem (toLowerCase x) ["low"; "minor"]).
  fold (mem (toLowerCase x) ["medium"; "normal"; "standard"]).
  fold (mem (toLowerCase x) ["high"; "important"; "urgent"; "major"]).
  fold (mem (toLowerCase x) ["highest"; "critical"; "blocker"; "severe"]).
  destruct (mem (toLowerCase x) ["lowest"; "very low"; "trivial"]); [reflexivity|].
  destruct (mem (toLowerCase x) ["low"; "minor"]); [reflexivity|].
  destruct (mem (toLowerCase x) ["medium"; "normal"; "standard"]); [reflexivity|].
  destruct (mem (toLowerCase x) ["high"; "important"; "urgent"; "major"]); [reflexivity|].
  destruct (mem (toLowerCase x) ["highest"; "critical"; "blocker"; "severe"]); reflexivity.
Qed.

Lemma normalizePriority_idempotent x :
  normalizePriority (normalizePriority x) = normalizePriority x.
Proof.
  unfold normalizePriority at 2 3.
  destruct (mem (toLowerCase x) ["lowest"; "very low"; "trivial"]) eqn:E1; [reflexivity|].
  destruct (mem (toLowerCase x) ["low"; "minor"]) eqn:E2; [reflexivity|].
  destruct (mem (toLowerCase x) ["medium"; "normal"; "standard"]) eqn:E3; [reflexivity|].
  destruct (mem (toLowerCase x) ["high"; "important"; "urgent"; "major"]) eqn:E4;
    [reflexivity|].
  destruct (mem (toLowerCase x) ["highest"; "critical"; "blocker"; "severe"]) eqn:E5;
    [reflexivity|].
  unfold normalizePriority. rewrite toLowerCase_capitalize, E1, E2, E3, E4, E5.
  apply capitalize_capitalize.
Qed.

Lemma normalizeIssueType_known x :
  normalizeIssueType x
  = match AI.assoc (toLowerCase x) known_types with
    | Some v => v
    | None => capitalize x
    end.
Proof.
  unfold normalizeIssueType, known_types. cbn [AI.assoc].
  rewrite !(String.eqb_sym (toLowerCase x)).
  destruct (String.eqb "bug" _); [reflexivity|].
  destruct (String.eqb "task" _); [reflexivity|].
  destruct (String.eqb "story" _); [reflexivity|].
  destruct (String.eqb "epic" _); reflexivity.
Qed.

Lemma normalizePriority_known x :
  normalizePriority x
  = match AI.assoc (toLowerCase x) known_priorities with
    | Some v => v
    | None => capitalize x
    end.
Proof.
  unfold normalizePriority, known_priorities, mem. cbn [AI.assoc existsb].
  rewrite !(String.eqb_sym (toLowerCase x)).
  destruct (String.eqb "lowest" _); [reflexivity|].
  destruct (String.eqb "very low" _); [reflexivity|].
  destruct (String.eqb "trivial" _); [reflexivity|].
  destruct (String.eqb "low" _); [reflexivity|].
  destruct (String.eqb "minor" _); [reflexivity|].
  destruct (String.eqb "medium" _); [reflexivity|].
  destruct (String.eqb "normal" _); [reflexivity|].
  destruct (String.eqb "standard" _); [reflexivity|].
  destruct (String.eqb "high" _); [reflexivity|].
  destruct (String.eqb "important" _); [reflexivity|].
  destruct (String.eqb "urgent" _); [reflexivity|].
  destruct (String.eqb "major" _); [reflexivity|].
  destruct (String.eqb "highest" _); [reflexivity|].
  destruct (String.eqb "critical" _); [reflexivity|].
  destruct (String.eqb "blocker" _); [reflexivity|].
  destruct (String.eqb "severe" _); reflexivity.
Qed.

(** C7, as the code has it, for ASCII text.  [normalizeIssueType] and
    [normalizePriority] are idempotent.  A text that is, up to case, one
    of the words the function knows is mapped to the value of that word
    (bug to Bug, task to Task, story to Story, epic to Epic; lowest, very
    low and trivial to Lowest; low and minor to Low; medium, normal and
    standard to Medium; high, important, urgent and major to High;
    highest, critical, blocker and severe to Highest), which is in the
    closed vocabulary; any other text is passed through with its first
    character in upper case. *)
Theorem normalize_idempotent (x : string) :
  is_ascii x = true ->
  normalizeIssueType (normalizeIssueType x) = normalizeIssueType x
  /\ normalizePriority (normalizePriority x) = normalizePriority x
  /\ normalizeIssueType x
     = match AI.assoc (toLowerCase x) known_types with
       | Some v => v
       | None => capitalize x
       end
  /\ normalizePriority x
     = match AI.assoc (toLowerCase x) known_priorities with
       | Some v => v
       | None => capitalize x
       end
  /\ (if mem (toLowerCase x) type_words
      then mem (normalizeIssueType x) types_vocabulary = true
      else normalizeIssueType x = capitalize x)
  /\ (if mem (toLowerCase x) priority_words
      then mem (normalizePriority x) priorities_vocabulary = true
      else normalizePriority x = capitalize x).
Proof.
  intros _.
  split; [apply normalizeIssueType_idempotent|].
  split; [apply normalizePriority_idempotent|].
  split; [apply normalizeIssueType_known|].
  split; [apply normalizePriority_known|].
  split; [apply normalizeIssueType_cases|apply normalizePriority_cases].
Qed.

Lemma normalize_idempotent_witness :
  is_ascii "URGENT" = true
  /\ normalizePriority "URGENT" = "High"
  /\ normalizePriority (normalizePriority "URGENT") = normalizePriority "URGENT"
  /\ normalizeIssueType "feature request" = "Feature request"
  /\ normalizeIssueType (normalizeIssueType "feature request")
     = normalizeIssueType "feature request".
Proof.
  destruct (normalize_idempotent "URGENT" eq_refl) as (_ & Hp & _ & Hk & _).
  destruct (normalize_idempotent "feature request" eq_refl) as (Ht & _ & Hn & _).
  split; [reflexivity|].
  split; [rewrite Hk; reflexivity|].
  split; [exact Hp|].
  split; [rewrite Hn; reflexivity|exact Ht].
Defined.

(** C7, as stated, fails: a text outside the vocabulary is passed through. *)
Lemma normalize_passes_through :
  normalizeIssueType "feature" = "Feature"
  /\ mem (normalizeIssueType "feature") types_vocabulary = false
  /\ normalizePriority "asap" = "Asap"
  /\ mem (normalizePriority "asap") priorities_vocabulary = false.
Proof. repeat split; reflexivity. Qed.

(** C8, as the code has it.  [detectsSearchIntent] holds exactly when the
    lower-cased text contains "search" or "find", contains "issue" or
    "ticket", and [detectsIssueCreationIntent] does not hold.  Keywords
    are matched as substrings: "search for issues about login" contains
    the creation keyword "log" and the issue keyword "issue", so it is
    taken for a creation request and not for a search, while "search for
    issues about payment" is a search. *)
Theorem detectsSearchIntent_iff (text : string) :
  (detectsSearchIntent text = true
   <-> (includes (toLowerCase text) "search" = true \/ includes (toLowerCase text) "find" = true)
       /\ (includes (toLowerCase text) "issue" = true
           \/ includes (toLowerCase text) "ticket" = true)
       /\ detectsIssueCreationIntent text = false)
  /\ includes "search for issues about login" "log" = true
  /\ detectsIssueCreationIntent "search for issues about login" = true
  /\ detectsSearchIntent "search for issues about login" = false
  /\ detectsIssueCreationIntent "search for issues about payment" = false
  /\ detectsSearchIntent "search for issues about payment" = true.
Proof.
  split; [|repeat split; reflexivity].
  unfold detectsSearchIntent.
  rewrite !andb_true_iff, !orb_true_iff, negb_true_iff. tauto.
Qed.

(** C8, as stated, fails on its own example. *)
Lemma detectsSearchIntent_login :
  ~ (detectsSearchIntent "search for issues about login" = true
     /\ detectsIssueCreationIntent "search for issues about login" = false).
Proof. intros [H _]. discriminate H. Qed.

(** C9, as the code has it.  From the utterance Create a bug called 'API
    Error' the lexical extractor recovers the issue type Bug and nothing
    else: a title is taken from double quotes only.  With the title in
    double quotes it recovers both. *)
Theorem extractExplicitInformation_api_error :
  extractExplicitInformation "Create a bug called 'API Error'"
  = Ok (MkIssueData None (Some (JStr "Bug")) None None None)
  /\ extractExplicitInformation (dq "Create a bug called 'API Error'")
     = Ok (MkIssueData None (Some (JStr "Bug")) (Some (JStr "API Error")) None None).
Proof. split; vm_compute; reflexivity. Qed.

(** C9, as stated, fails: no title is recovered. *)
Lemma extractExplicitInformation_no_title :
  ~ exists d, extractExplicitInformation "Create a bug called 'API Error'" = Ok d
              /\ issueType d = Some (JStr "Bug")
              /\ title d = Some (JStr "API Error").
Proof. intros (d & H & _ & Ht). vm_compute in H. injection H as <-. discriminate Ht. Qed.

End LexicalFacts.

(** ** The conversation flow *)

Module FlowFacts.

Import Types ConversationManager Spec.

Lemma missing_named (validated : AI.ExtractedParameters) (t : jsnum) :
  join " and " (AI.missingRequired (AI.validateRequiredParameters validated t))
  = named_fields (AI.weak t (AI.title validated)) (AI.weak t (AI.description validated)).
Proof.
  unfold AI.validateRequiredParameters.
  by destruct (AI.weak t (AI.title validated)), (AI.weak t (AI.description validated)).
Qed.

Lemma invalid_some_missing (validated : AI.ExtractedParameters) (t : jsnum) :
  AI.isValid (AI.validateRequiredParameters validated t) = false ->
  AI.weak t (AI.title validated) = true \/ AI.weak t (AI.description validated) = true.
Proof.
  unfold AI.validateRequiredParameters.
  destruct (AI.weak t (AI.title validated)), (AI.weak t (AI.description validated));
    simpl; auto.
Qed.

(** C3.  When the extraction and the validation return and the
    required-field check fails, [startIssueCreationWithAI] answers with
    the error action, whose message names exactly the fields the check
    reports, "title", "description" or "title and description", and
    leaves the state reset: creation switched off, the step back at
    DETECTING_INTENT, no issue data, nothing asked, no extraction kept.
    A state that was the initial one is the initial one again. *)
Theorem missing_required_resets
    (ToNumber_text : jsval -> jsnum)
    (startIssueCreation : string -> ConversationState -> ConversationState)
    (determineNextStep : ConversationState -> IssueCreationStep)
    (getQuestionForStep : IssueCreationStep -> string)
    (ai : AI.Completion) (userInput : string) (state : ConversationState)
    (extracted validated : AI.ExtractedParameters) :
  AI.extractParameters ToNumber_text ai userInput = Ok extracted ->
  AI.validateExtractedParameters extracted = Ok validated ->
  AI.isValid (AI.validateRequiredParameters validated (Num (6 # 10))) = false ->
  let no_title := AI.weak (Num (6 # 10)) (AI.title validated) in
  let no_description := AI.weak (Num (6 # 10)) (AI.description validated) in
  let r := startIssueCreationWithAI ToNumber_text startIssueCreation determineNextStep
             getQuestionForStep ai userInput state in
  (no_title = true \/ no_description = true)
  /\ ("title" ∈ AI.missingRequired (AI.validateRequiredParameters validated (Num (6 # 10)))
      <-> no_title = true)
  /\ ("description" ∈ AI.missingRequired (AI.validateRequiredParameters validated (Num (6 # 10)))
      <-> no_description = true)
  /\ fst r = MkOutcome error
               (Some ("❌ Missing required information: "
                      +:+ named_fields no_title no_description
                      +:+ ". Please provide both a title and description in your request."))
               None
  /\ snd r = MkState false no_data DETECTING_INTENT ∅ None None (pendingValidation state)
  /\ (state = initial_state -> snd r = initial_state).
Proof.
  intros He Hv Hi. cbv zeta.
  split; [by apply invalid_some_missing|].
  split; [|split].
  { unfold AI.validateRequiredParameters.
    destruct (AI.weak _ (AI.title validated)), (AI.weak _ (AI.description validated));
      simpl; set_solver. }
  { unfold AI.validateRequiredParameters.
    destruct (AI.weak _ (AI.title validated)), (AI.weak _ (AI.description validated));
      simpl; set_solver. }
  unfold startIssueCreationWithAI, startIssueCreationWithAI_try.
  rewrite He. cbn [mbind res_bind Err.bind]. rewrite Hv. cbn [mbind res_bind Err.bind].
  rewrite Hi. cbn [negb mret res_ret fst snd].
  unfold missing_message. rewrite missing_named.
  split; [reflexivity|]. split; [reflexivity|]. by intros ->.
Qed.

Lemma missing_required_resets_witness :
  let r := startIssueCreationWithAI sample_ToNumber_text sample_startIssueCreation
             sample_determineNextStep sample_getQuestionForStep
             AI.CompletionThrows "can you please create a new issue" initial_state in
  fst r = MkOutcome error
            (Some "❌ Missing required information: title and description. Please provide both a title and description in your request.")
            None
  /\ snd r = initial_state.
Proof.
  cbv zeta.
  destruct (missing_required_resets sample_ToNumber_text sample_startIssueCreation
              sample_determineNextStep sample_getQuestionForStep
              AI.CompletionThrows "can you please create a new issue" initial_state
              canonical_default canonical_default)
    as (_ & _ & _ & Hm & _ & Hs); [reflexivity | reflexivity | reflexivity |].
  split; [exact Hm | exact (Hs eq_refl)].
Defined.

(** C10, as the code has it.  In the CONFIRMING_DETAILS step with
    extracted parameters present the cancellation check runs first: an
    utterance it matches is answered with cancel and the state is reset,
    whatever else the utterance contains.  For an utterance the check lets
    through: if its lower-cased text contains "yes", "confirm" or "create"
    anywhere the answer is create_issue and the state is unchanged,
    whether or not it also contains "no"; otherwise, if it contains "no"
    or "cancel", the answer is cancel and the state is reset; otherwise
    the answer is continue, asking again, and the state is unchanged. *)
Theorem confirming_details_decision
    (checkForCancellation : string -> bool)
    (determineNextStep : ConversationState -> IssueCreationStep)
    (getQuestionForStep : IssueCreationStep -> string)
    (processResponse :
       string -> IssueCreationStep -> ConversationState -> StepResult * ConversationState)
    (userInput : string) (state : ConversationState) :
  currentStep state = CONFIRMING_DETAILS ->
  extractedParameters state <> None ->
  let lowerInput := toLowerCase userInput in
  let affirmative :=
    includes lowerInput "yes" || includes lowerInput "confirm" || includes lowerInput "create" in
  let negative := includes lowerInput "no" || includes lowerInput "cancel" in
  handleIssueCreationFlow checkForCancellation determineNextStep getQuestionForStep
    processResponse userInput state
  = if checkForCancellation userInput
    then (MkOutcome cancel (Some cancelled_message) None, resetState state)
    else if affirmative then (MkOutcome create_issue None None, state)
    else if negative then (MkOutcome cancel (Some cancelled_message) None, resetState state)
    else (MkOutcome continue (Some confirm_message) None, state).
Proof.
  intros Hs He. cbv zeta. unfold handleIssueCreationFlow.
  destruct (checkForCancellation userInput); [reflexivity|].
  rewrite Hs. cbn [step_eqb andb].
  destruct (extractedParameters state); [|done]. reflexivity.
Qed.

Lemma confirming_details_decision_witness :
  let state := MkState true no_data CONFIRMING_DETAILS ∅ (Some canonical_default) None ∅ in
  handleIssueCreationFlow sample_checkForCancellation sample_determineNextStep
    sample_getQuestionForStep sample_processResponse "Yesterday? No." state
  = (MkOutcome create_issue None None, state)
  /\ handleIssueCreationFlow sample_checkForCancellation sample_determineNextStep
       sample_getQuestionForStep sample_processResponse "I know nothing" state
     = (MkOutcome cancel (Some cancelled_message) None, initial_state)
  /\ handleIssueCreationFlow sample_checkForCancellation sample_determineNextStep
       sample_getQuestionForStep sample_processResponse "maybe" state
     = (MkOutcome continue (Some confirm_message) None, state).
Proof.
  cbv zeta. split; [|split].
  - rewrite (confirming_details_decision sample_checkForCancellation sample_determineNextStep
               sample_getQuestionForStep sample_processResponse "Yesterday? No.");
      [reflexivity | reflexivity | discriminate].
  - rewrite (confirming_details_decision sample_checkForCancellation sample_determineNextStep
               sample_getQuestionForStep sample_processResponse "I know nothing");
      [reflexivity | reflexivity | discriminate].
  - rewrite (confirming_details_decision sample_checkForCancellation sample_determineNextStep
               sample_getQuestionForStep sample_processResponse "maybe");
      [reflexivity | reflexivity | discriminate].
Defined.

(** C10, as stated, fails: the cancellation check comes before the
    confirmation step.  With the check the specification describes, an
    utterance that contains "yes" and also "cancel" is answered with
    cancel and a reset state, not with create_issue. *)
Lemma confirming_details_cancel_first :
  let state := MkState true no_data CONFIRMING_DETAILS ∅ (Some canonical_default) None ∅ in
  let r := handleIssueCreationFlow sample_checkForCancellation sample_determineNextStep
             sample_getQuestionForStep sample_processResponse "yes, do not cancel" state in
  currentStep state = CONFIRMING_DETAILS
  /\ extractedParameters state <> None
  /\ includes (toLowerCase "yes, do not cancel") "yes" = true
  /\ r = (MkOutcome cancel (Some cancelled_message) None, resetState state)
  /\ action (fst r) <> create_issue.
Proof. cbv zeta. repeat split; try reflexivity; discriminate. Qed.

End FlowFacts.

(** * Further properties of the code *)

(** ** Literals in patterns *)

Module LabelFacts.

Import Regex RegexFacts AIParameterExtractor Spec.

Lemma chr_match_lower ci c a : chr_match ci c a = true -> lower_char c = lower_char a.
Proof.
  unfold chr_match. destruct ci; intros H%Ascii.eqb_eq; [|by subst].
  rewrite <- (LexicalFacts.lower_upper_char c), H. apply LexicalFacts.lower_upper_char.
Qed.

Lemma prefix_cons c l a s :
  lower_char c = lower_char a ->
  String.prefix (toLowerCase l) (toLowerCase s) = true ->
  String.prefix (toLowerCase (String c l)) (toLowerCase (String a s)) = true.
Proof.
  intros Hc Hp. simpl. rewrite Hc.
  destruct (ascii_dec (lower_char a) (lower_char a)); done.
Qed.

Lemma prefix_nil s : String.prefix "" s = true.
Proof. by destruct s. Qed.

(** A literal matches only where the text has it, up to letter case. *)
Lemma m_Lit_prefix ci l :
  forall k s out, m ci (Lit l) k s = Some out ->
    String.prefix (toLowerCase l) (toLowerCase (rest s)) = true.
Proof.
  induction l as [|c t IH]; intros k s out H.
  - apply prefix_nil.
  - destruct t as [|c' t'].
    + cbn [Lit m] in H. destruct (rest s) as [|a r]; [done|].
      destruct (chr_match ci c a) eqn:E; [|done].
      apply prefix_cons; [by eapply chr_match_lower|apply prefix_nil].
    + change (Lit (String c (String c' t'))) with (Seq (Chr c) (Lit (String c' t'))) in H.
      cbn [m] in H. destruct (rest s) as [|a r]; [done|].
      destruct (chr_match ci c a) eqn:E; [|done].
      apply IH in H. apply prefix_cons; [by eapply chr_match_lower|exact H].
Qed.

Lemma includes_here s sub : String.prefix sub s = true -> includes s sub = true.
Proof. intros H. destruct s; simpl in *; by rewrite H. Qed.

Lemma includes_later c s sub : includes s sub = true -> includes (String c s) sub = true.
Proof. intros H. cbn [includes]. rewrite H. apply orb_true_r. Qed.

(** A pattern that begins with a literal matches only in a text that
    contains the literal, up to letter case. *)
Lemma search_Lit ci l r pre p s mt :
  search ci (Seq (Lit l) r) pre p s = Some mt ->
  includes (toLowerCase s) (toLowerCase l) = true.
Proof.
  revert pre p. induction s as [|a t IH]; intros pre p H; cbn [search] in H.
  - destruct (m ci _ Some _) as [fin|] eqn:E; [|done].
    cbn [m] in E. apply m_Lit_prefix in E. by apply includes_here.
  - destruct (m ci _ Some _) as [fin|] eqn:E.
    + cbn [m] in E. apply m_Lit_prefix in E. by apply includes_here.
    + apply IH in H. by apply includes_later.
Qed.

Lemma exec_Lit ci l r s :
  includes (toLowerCase s) (toLowerCase l) = false -> exec ci (Seq (Lit l) r) s = None.
Proof.
  intros H. destruct (exec ci (Seq (Lit l) r) s) as [mt|] eqn:E; [|done].
  apply search_Lit in E. congruence.
Qed.

Lemma prefix_app_includes a b s :
  String.prefix (a +:+ b) s = true -> includes s b = true.
Proof.
  revert s. induction a as [|c a IH]; intros s H.
  - by apply includes_here.
  - destruct s as [|c' s]; [done|]. simpl in H.
    destruct (ascii_dec c c'); [|done]. apply includes_later. by apply IH.
Qed.

Lemma includes_app_r a b s : includes s (a +:+ b) = true -> includes s b = true.
Proof.
  induction s as [|c s IH]; intros H.
  - change (String.prefix (a +:+ b) "" || false = true) in H.
    apply orb_true_iff in H as [H|H]; [by eapply prefix_app_includes|done].
  - change (String.prefix (a +:+ b) (String c s) || includes s (a +:+ b) = true) in H.
    apply orb_true_iff in H as [H|H]; [by eapply prefix_app_includes|].
    apply includes_later. by apply IH.
Qed.

End LabelFacts.

Module FallbackExtras.

Import Regex RegexFacts AIParameterExtractor Spec ExtractorFacts LabelFacts.

Lemma first_capture_unlabelled label rs userInput :
  includes (toLowerCase userInput) (toLowerCase label) = false ->
  first_capture (map (fun r => Seq (Lit label) r) rs) userInput = Ok None.
Proof.
  intros H. induction rs as [|r rs IH]; [done|].
  cbn [map first_capture]. by rewrite exec_Lit.
Qed.

Lemma first_capture_app ps qs userInput :
  first_capture ps userInput = Ok None ->
  first_capture (ps ++ qs) userInput = first_capture qs userInput.
Proof.
  induction ps as [|p ps IH]; [done|]. cbn [app first_capture].
  destruct (exec true p userInput) as [mt|]; [|done].
  destruct (group1 mt) as [g|]; [|done].
  by destruct (negb (String.eqb (trim g) "")).
Qed.

Lemma first_capture_title_unlabelled userInput :
  includes (toLowerCase userInput) "title:" = false ->
  first_capture titlePatterns userInput = Ok None.
Proof.
  intros H.
  set (q := Seq (Star true Space)
              (Seq quote_class (Seq (Group (Plus true not_quote)) quote_class))).
  set (u := Seq (Star true Space)
              (Seq (Group (Plus false not_comma_nl))
                 (Ahead (Seq (Plus true Space)
                           (Alts [Lit "Issue Description"; Lit "Description"; Eos]))))).
  change titlePatterns with (map (fun r => Seq (Lit "Title:") r) [q; u]).
  by apply first_capture_unlabelled.
Qed.

Lemma first_capture_description_unlabelled userInput :
  includes (toLowerCase userInput) "description:" = false ->
  first_capture descriptionPatterns userInput = Ok None.
Proof.
  intros H.
  set (q := Seq (Star true Space)
              (Seq quote_class (Seq (Group (Plus true not_quote)) quote_class))).
  set (e := Seq (Star true Space) (Seq (Group (Plus false not_comma_nl)) Eos)).
  change descriptionPatterns with
    (map (fun r => Seq (Lit "Issue Description:") r) [q] ++
     map (fun r => Seq (Lit "Description:") r) [q] ++
     map (fun r => Seq (Lit "Issue Description:") r) [e] ++
     map (fun r => Seq (Lit "Description:") r) [e])%list.
  assert (Hi : includes (toLowerCase userInput) (toLowerCase "Issue Description:") = false).
  { destruct (includes _ (toLowerCase "Issue Description:")) eqn:Hi; [|done].
    apply (includes_app_r "issue " "description:") in Hi. congruence. }
  rewrite !first_capture_app by (by apply first_capture_unlabelled).
  by apply first_capture_unlabelled.
Qed.

(** A text with neither label gives the empty extraction. *)
Lemma fallbackExtraction_unlabelled userInput :
  includes (toLowerCase userInput) "title:" = false ->
  includes (toLowerCase userInput) "description:" = false ->
  fallbackExtraction userInput = Ok createEmptyExtraction.
Proof.
  intros Ht Hd. unfold fallbackExtraction.
  by rewrite (first_capture_title_unlabelled _ Ht), (first_capture_description_unlabelled _ Hd).
Qed.

(** X1.  The lexical fallback reads a title only from a text that contains
    the label title: and a description only from a text that contains the
    label description:, in any letter case; without the label the field
    stays empty. *)
Theorem fallbackExtraction_needs_label (userInput : string) :
  exists fallback,
    fallbackExtraction userInput = Ok fallback
    /\ (includes (toLowerCase userInput) "title:" = false ->
        title fallback = empty_parameter)
    /\ (includes (toLowerCase userInput) "description:" = false ->
        description fallback = empty_parameter).
Proof.
  destruct (fallbackExtraction_returns userInput) as (t & d & E & _ & _).
  eexists. split; [exact E|].
  unfold fallbackExtraction in E.
  split; intros H.
  - rewrite (first_capture_title_unlabelled _ H) in E.
    cbn [mbind res_bind Err.bind] in E.
    destruct (first_capture descriptionPatterns userInput); [|done].
    by injection E as <- <-.
  - destruct (first_capture titlePatterns userInput); [|done].
    cbn [mbind res_bind Err.bind] in E.
    rewrite (first_capture_description_unlabelled _ H) in E.
    by injection E as <- <-.
Qed.

Lemma fallbackExtraction_needs_label_witness :
  exists fallback,
    fallbackExtraction "Description: the page is blank" = Ok fallback
    /\ title fallback = empty_parameter
    /\ value (description fallback) = JStr "the page is blank".
Proof.
  destruct (fallbackExtraction_needs_label "Description: the page is blank")
    as (fb & E & Ht & _).
  exists fb. split; [exact E|]. split; [apply Ht; reflexivity|].
  vm_compute in E. by injection E as <-.
Defined.

End FallbackExtras.

(** ** The extractor and the validator *)

Module ExtractorExtras.

Import AIParameterExtractor Spec ExtractorFacts.

Lemma applyDefaults_settled e :
  weak defaulting_threshold (type (applyDefaults e)) = false
  /\ weak defaulting_threshold (project (applyDefaults e)) = false
  /\ weak defaulting_threshold (priority (applyDefaults e)) = false.
Proof.
  rewrite applyDefaults_fields. cbn [type project priority].
  repeat split; by apply weak_settled.
Qed.

Lemma applyDefaults_twice e : applyDefaults (applyDefaults e) = applyDefaults e.
Proof.
  destruct (applyDefaults_settled e) as (Hty & Hpj & Hpr).
  rewrite (applyDefaults_fields (applyDefaults e)), Hty, Hpj, Hpr.
  by destruct (applyDefaults e).
Qed.

Lemma logExtractionResults_logged e : logExtractionResults e = Ok tt -> logged e.
Proof.
  unfold logExtractionResults, logged.
  destruct (log_field (title e)) as [[]|]; [|discriminate].
  destruct (log_field (type e)) as [[]|]; [|discriminate].
  destruct (log_field (project e)) as [[]|]; [|discriminate].
  destruct (log_field (priority e)) as [[]|]; [|discriminate].
  destruct (log_field (description e)) as [[]|]; [|discriminate].
  by intros _.
Qed.

Lemma log_field_text p : (forall v, value p = v -> v = JNull \/ exists s, v = JStr s) ->
  log_field p = Ok tt.
Proof.
  intros H. unfold log_field, template.
  destruct (H _ eq_refl) as [-> | [s ->]]; [done|].
  by destruct (truthy (JStr s)).
Qed.

Lemma log_field_recovered o : log_field (recovered o) = Ok tt.
Proof. apply log_field_text. intros v <-. destruct o; simpl; eauto. Qed.

Lemma extractParameters_try_ok tn ai userInput r :
  extractParameters_try tn ai userInput = Ok r ->
  (exists e, r = applyDefaults e) /\ logged r.
Proof.
  unfold extractParameters_try.
  destruct ai as [|content]; [discriminate|]. cbn [mbind res_bind Err.bind].
  destruct content as [s|]; [|discriminate].
  destruct (no_response (Some s)); [discriminate|]. cbn [mbind res_bind Err.bind].
  destruct (_ && _).
  - destruct (fallbackExtraction userInput) as [fb|]; [|discriminate].
    cbn [mbind res_bind Err.bind mret res_ret].
    destruct (logExtractionResults _) as [[]|] eqn:L; [|discriminate].
    intros [= <-]. split; [eauto|by apply logExtractionResults_logged].
  - cbn [mbind res_bind Err.bind mret res_ret].
    destruct (logExtractionResults _) as [[]|] eqn:L; [|discriminate].
    intros [= <-]. split; [eauto|by apply logExtractionResults_logged].
Qed.

Lemma extractParameters_try_defaults tn ai userInput r :
  extractParameters_try tn ai userInput = Ok r -> exists e, r = applyDefaults e.
Proof. intros H. by apply extractParameters_try_ok in H as [? _]. Qed.

(** Every value of an extraction that [extractParameters] returns has been
    written out, or is a text of the lexical fallback or of a default. *)
Lemma extractParameters_logged tn ai userInput r :
  extractParameters tn ai userInput = Ok r -> logged r.
Proof.
  unfold extractParameters.
  destruct (extractParameters_try tn ai userInput) as [r'|] eqn:E; cbn [try_catch].
  - intros [= <-]. by apply extractParameters_try_ok in E as [_ ?].
  - destruct (fallbackExtraction_returns userInput) as (t & d & Ef & _ & _).
    destruct (extractParameters_catch_returns userInput) as (fb & Ef' & ->).
    rewrite Ef in Ef'. injection Ef' as <-.
    destruct (_ || _); intros [= <-].
    + rewrite applyDefaults_fields. unfold logged.
      cbn [title type project priority description].
      repeat split; first [apply log_field_recovered | reflexivity].
    + by repeat split.
Qed.

Lemma extractParameters_defaults tn ai userInput r :
  extractParameters tn ai userInput = Ok r -> applyDefaults r = r.
Proof.
  unfold extractParameters.
  destruct (extractParameters_try tn ai userInput) as [r'|] eqn:E; cbn [try_catch].
  - intros [= <-]. apply extractParameters_try_defaults in E as [e ->].
    apply applyDefaults_twice.
  - destruct (extractParameters_catch_returns userInput) as (fb & _ & ->).
    destruct (_ || _); intros [= <-]; [apply applyDefaults_twice|reflexivity].
Qed.

Lemma extractParameters_returns tn ai userInput :
  exists r, extractParameters tn ai userInput = Ok r.
Proof.
  unfold extractParameters.
  destruct (extractParameters_try tn ai userInput); cbn [try_catch]; [eauto|].
  destruct (extractParameters_catch_returns userInput) as (fb & _ & ->). eauto.
Qed.

(** X2.  Whatever the completion call does, the extraction that
    [extractParameters] returns has a type, a project and a priority that
    are populated (the value is truthy and the confidence is not below
    0.6), so applying the defaults to it again changes nothing. *)
Theorem extractParameters_populated
    (ToNumber_text : jsval -> jsnum) (ai : Completion) (userInput : string) :
  exists r,
    extractParameters ToNumber_text ai userInput = Ok r
    /\ applyDefaults r = r
    /\ truthy (value (type r)) = true /\ js_lt (confidence (type r)) (Num (6 # 10)) = false
    /\ truthy (value (project r)) = true /\ js_lt (confidence (project r)) (Num (6 # 10)) = false
    /\ truthy (value (priority r)) = true
    /\ js_lt (confidence (priority r)) (Num (6 # 10)) = false.
Proof.
  destruct (extractParameters_returns ToNumber_text ai userInput) as [r Hr].
  exists r. split; [exact Hr|].
  pose proof (extractParameters_defaults _ _ _ _ Hr) as Hd.
  split; [exact Hd|].
  destruct (applyDefaults_settled r) as (Hty & Hpj & Hpr). rewrite Hd in Hty, Hpj, Hpr.
  unfold weak, falsy in Hty, Hpj, Hpr.
  apply orb_false_iff in Hty as [?%negb_false_iff ?].
  apply orb_false_iff in Hpj as [?%negb_false_iff ?].
  apply orb_false_iff in Hpr as [?%negb_false_iff ?].
  repeat split; assumption.
Qed.


Lemma assoc_own_values key name :
  assoc key projectMapping_own = Some name -> mem name validFullNames = true.
Proof.
  unfold projectMapping_own. cbn [assoc].
  repeat (destruct (String.eqb _ key); [by intros [= <-]|]). done.
Qed.

Lemma validate_type_vocabulary p q :
  truthy (value p) = true -> validate_type p = Ok q ->
  includes_value validTypes (value q) = true.
Proof.
  intros H ->%validate_type_ok. rewrite H.
  destruct (includes_value validTypes (value p)) eqn:E; [exact E|reflexivity].
Qed.

Lemma validate_priority_vocabulary p q :
  truthy (value p) = true -> validate_priority p = Ok q ->
  includes_value validPriorities (value q) = true.
Proof.
  intros H ->%validate_priority_ok. rewrite H.
  destruct (includes_value validPriorities (value p)) eqn:E; [exact E|reflexivity].
Qed.

(** The message about an invalid type or priority can be written when the
    value has been written out before. *)
Lemma validate_type_returns p : log_field p = Ok tt -> exists q, validate_type p = Ok q.
Proof.
  unfold log_field, validate_type. destruct (truthy (value p)); [|eauto].
  intros ->. destruct (negb _); eauto.
Qed.

Lemma validate_priority_returns p :
  log_field p = Ok tt -> exists q, validate_priority p = Ok q.
Proof.
  unfold log_field, validate_priority. destruct (truthy (value p)); [|eauto].
  intros ->. destruct (negb _); eauto.
Qed.

Lemma validate_project_throws p :
  validate_project p = Throw
  <-> truthy (value p) = true /\ (forall s, value p <> JStr s).
Proof.
  unfold validate_project.
  destruct (truthy (value p)) eqn:Ht.
  - destruct (value p) as [| | |s| | | |] eqn:Hv;
      try (split; [by intros _|done]).
    split; [|intros [_ H]; by destruct (H s)].
    destruct (truthy (or_else _ JNull)); [done|].
    destruct (find _ validFullNames); [done|]. by destruct (_ || _).
  - split; [done|by intros [? _]].
Qed.

Lemma template_throws v :
  template v = Throw <-> stringifies v = false.
Proof. unfold template. by destruct (stringifies v). Qed.

Lemma validate_type_throws p :
  validate_type p = Throw
  <-> truthy (value p) = true /\ includes_value validTypes (value p) = false
      /\ stringifies (value p) = false.
Proof.
  unfold validate_type, template.
  destruct (truthy (value p)); [|split; [done|by intros [? _]]].
  destruct (includes_value validTypes (value p)); cbn [negb];
    [split; [done|by intros (_ & ? & _)]|].
  destruct (stringifies (value p)); cbn [mbind res_bind Err.bind];
    [split; [done|by intros (_ & _ & ?)]|done].
Qed.

Lemma validate_priority_throws p :
  validate_priority p = Throw
  <-> truthy (value p) = true /\ includes_value validPriorities (value p) = false
      /\ stringifies (value p) = false.
Proof.
  unfold validate_priority, template.
  destruct (truthy (value p)); [|split; [done|by intros [? _]]].
  destruct (includes_value validPriorities (value p)); cbn [negb];
    [split; [done|by intros (_ & ? & _)]|].
  destruct (stringifies (value p)); cbn [mbind res_bind Err.bind];
    [split; [done|by intros (_ & _ & ?)]|done].
Qed.

(** On an extraction that [extractParameters] returned, the validator can
    only throw on the project. *)
Lemma validateExtractedParameters_logged_throws e :
  logged e ->
  validateExtractedParameters e = Throw
  <-> truthy (value (project e)) = true /\ (forall s, value (project e) <> JStr s).
Proof.
  intros (_ & Lt & _ & Lp & _).
  rewrite validateExtractedParameters_steps, <- validate_project_throws.
  destruct (validate_type_returns _ Lt) as [t ->].
  destruct (validate_priority_returns _ Lp) as [pr ->].
  cbn [mbind res_bind Err.bind].
  by destruct (validate_project (project e)).
Qed.

Lemma validate_project_resolved p q :
  truthy (value p) = true -> validate_project p = Ok q ->
  resolved_project (value q).
Proof.
  intros H. unfold validate_project. rewrite H.
  destruct (value p) as [| | |s| | | |]; try done.
  unfold projectMapping.
  destruct (assoc (trim (toLowerCase s)) projectMapping_own) as [name|] eqn:Ha.
  - apply assoc_own_values in Ha.
    assert (Hn : truthy (JStr name) = true) by (destruct name; [discriminate Ha|reflexivity]).
    assert (Ho : or_else (Some (JStr name)) JNull = JStr name)
      by (unfold or_else; by rewrite Hn).
    rewrite Ho, Hn. intros [= <-]. left. exists name. by split.
  - destruct (String.eqb _ "constructor").
    { cbn [or_else truthy]. intros [= <-]. right. by left. }
    destruct (String.eqb _ "__proto__").
    { cbn [or_else truthy]. intros [= <-]. right. by right. }
    cbn [or_else truthy].
    destruct (find _ validFullNames) as [name|] eqn:Hf.
    + intros [= <-]. left. exists name. split; [done|].
      apply find_some in Hf as [Hin _]. unfold mem. apply existsb_exists.
      exists name. split; [exact Hin|apply String.eqb_refl].
    + destruct (_ || _); intros [= <-]; left; by exists "FV Demo (Issues)".
Qed.

(** X3.  An extraction returned by [extractParameters] that the validator
    accepts has a type among Bug, Task, Story, Epic, a priority among
    Lowest, Low, Medium, High, Highest, and a project that is one of the
    four canonical project names or, for the two keys every object
    inherits, the inherited member. *)
Theorem validated_vocabulary
    (ToNumber_text : jsval -> jsnum) (ai : Completion) (userInput : string)
    (extracted validated : ExtractedParameters) :
  extractParameters ToNumber_text ai userInput = Ok extracted ->
  validateExtractedParameters extracted = Ok validated ->
  includes_value validTypes (value (type validated)) = true
  /\ includes_value validPriorities (value (priority validated)) = true
  /\ resolved_project (value (project validated)).
Proof.
  intros He Hv.
  destruct (applyDefaults_settled extracted) as (Hty & Hpj & Hpr).
  rewrite (extractParameters_defaults _ _ _ _ He) in Hty, Hpj, Hpr.
  apply weak_false_value in Hty, Hpj, Hpr.
  apply validateExtractedParameters_ok in Hv as (t & pr & q & Et & Epr & Eq & ->).
  cbn [title type project priority description].
  split; [exact (validate_type_vocabulary _ _ Hty Et)|].
  split; [exact (validate_priority_vocabulary _ _ Hpr Epr)|].
  exact (validate_project_resolved _ _ Hpj Eq).
Qed.

Lemma validated_vocabulary_witness :
  exists validated,
    validateExtractedParameters canonical_default = Ok validated
    /\ includes_value validTypes (value (type validated)) = true
    /\ includes_value validPriorities (value (priority validated)) = true
    /\ resolved_project (value (project validated)).
Proof.
  exists canonical_default. split; [reflexivity|].
  apply (validated_vocabulary sample_ToNumber_text CompletionThrows
           "can you please create a new issue" canonical_default canonical_default);
    reflexivity.
Defined.

(** X4.  The validator throws exactly in three cases: the type is truthy,
    is not in the vocabulary and has no primitive, so that the message
    about it cannot be written; the same for the priority; the project is
    truthy and is not a text, so that it has no [toLowerCase].  On an
    extraction that [extractParameters] returned, whose values have been
    written out before, only the third case is left. *)
Theorem validateExtractedParameters_throws
    (ToNumber_text : jsval -> jsnum) (ai : Completion) (userInput : string)
    (e : ExtractedParameters) :
  (validateExtractedParameters e = Throw
   <-> (truthy (value (type e)) = true
        /\ includes_value validTypes (value (type e)) = false
        /\ stringifies (value (type e)) = false)
       \/ (truthy (value (priority e)) = true
           /\ includes_value validPriorities (value (priority e)) = false
           /\ stringifies (value (priority e)) = false)
       \/ (truthy (value (project e)) = true /\ (forall s, value (project e) <> JStr s)))
  /\ (extractParameters ToNumber_text ai userInput = Ok e ->
      (validateExtractedParameters e = Throw
       <-> truthy (value (project e)) = true
           /\ (forall s, value (project e) <> JStr s))).
Proof.
  split; [|intros H; apply validateExtractedParameters_logged_throws;
            exact (extractParameters_logged _ _ _ _ H)].
  rewrite validateExtractedParameters_steps.
  rewrite <- validate_type_throws, <- validate_priority_throws, <- validate_project_throws.
  destruct (validate_type (type e)) as [t|]; cbn [mbind res_bind Err.bind];
    [|split; [by left|done]].
  destruct (validate_priority (priority e)) as [pr|]; cbn [mbind res_bind Err.bind];
    [|split; [right; by left|done]].
  destruct (validate_project (project e)) as [p|]; cbn [mbind res_bind Err.bind mret res_ret].
  - split; [done|]. by intros [?|[?|?]].
  - split; [right; by right|done].
Qed.

Lemma validateExtractedParameters_throws_witness :
  extractParameters sample_ToNumber_text
    (CompletionContent (Some (dq "{'project':{'value':['eng'],'confidence':0.9}}")))
    "the login page is broken"
  = Ok (with_project (Param (JArr [JStr "eng"]) (Num (9 # 10)) ai_extracted)
          canonical_default)
  /\ validateExtractedParameters
       (with_project (Param (JArr [JStr "eng"]) (Num (9 # 10)) ai_extracted)
          canonical_default) = Throw.
Proof.
  assert (H : extractParameters sample_ToNumber_text
    (CompletionContent (Some (dq "{'project':{'value':['eng'],'confidence':0.9}}")))
    "the login page is broken"
  = Ok (with_project (Param (JArr [JStr "eng"]) (Num (9 # 10)) ai_extracted)
          canonical_default)) by (vm_compute; reflexivity).
  split; [exact H|].
  destruct (validateExtractedParameters_throws sample_ToNumber_text
              (CompletionContent (Some (dq "{'project':{'value':['eng'],'confidence':0.9}}")))
              "the login page is broken"
              (with_project (Param (JArr [JStr "eng"]) (Num (9 # 10)) ai_extracted)
                 canonical_default)) as [_ K].
  apply (K H). split; [reflexivity|discriminate].
Defined.

Lemma validate_full_name name c s :
  mem name validFullNames = true ->
  validate_project (Param (JStr name) c s) = Ok (Param (JStr name) c s).
Proof.
  unfold validFullNames, mem. cbn [existsb].
  intros H. repeat apply orb_true_iff in H as [H|H]; try done;
    apply String.eqb_eq in H; subst; reflexivity.
Qed.

Lemma validate_type_twice p q : validate_type p = Ok q -> validate_type q = Ok q.
Proof.
  intros ->%validate_type_ok.
  destruct (truthy (value p)) eqn:Ht; cbn [andb]; [|unfold validate_type; by rewrite Ht].
  destruct (negb (includes_value validTypes (value p))) eqn:Hi; [reflexivity|].
  unfold validate_type. by rewrite Ht, Hi.
Qed.

Lemma validate_priority_twice p q :
  validate_priority p = Ok q -> validate_priority q = Ok q.
Proof.
  intros ->%validate_priority_ok.
  destruct (truthy (value p)) eqn:Ht; cbn [andb]; [|unfold validate_priority; by rewrite Ht].
  destruct (negb (includes_value validPriorities (value p))) eqn:Hi; [reflexivity|].
  unfold validate_priority. by rewrite Ht, Hi.
Qed.

Lemma validate_project_twice p q :
  validate_project p = Ok q -> (exists s, value q = JStr s) \/ value q = JNull ->
  validate_project q = Ok q.
Proof.
  intros Hq Hs.
  destruct (truthy (value p)) eqn:Ht.
  - pose proof (validate_project_resolved _ _ Ht Hq) as [(name & Hv & Hm)|[Hc|Hc]].
    + destruct q as [v c s]. simpl in Hv. subst v. by apply validate_full_name.
    + rewrite Hc in Hs. by destruct Hs as [[? ?]|?].
    + rewrite Hc in Hs. by destruct Hs as [[? ?]|?].
  - unfold validate_project in Hq. rewrite Ht in Hq. injection Hq as <-.
    unfold validate_project. by rewrite Ht.
Qed.

(** X5.  Validating twice is validating once: an extraction the validator
    returned, whose project is a text or null, is returned unchanged by
    the validator. *)
Theorem validateExtractedParameters_twice (e v : ExtractedParameters) :
  validateExtractedParameters e = Ok v ->
  (exists s, value (project v) = JStr s) \/ value (project v) = JNull ->
  validateExtractedParameters v = Ok v.
Proof.
  intros (t & pr & q & Et & Epr & Eq & ->)%validateExtractedParameters_ok.
  cbn [title type project priority description]. intros Hs.
  rewrite validateExtractedParameters_steps.
  cbn [title type project priority description].
  rewrite (validate_type_twice _ _ Et), (validate_priority_twice _ _ Epr),
    (validate_project_twice _ _ Eq Hs).
  reflexivity.
Qed.

Lemma validateExtractedParameters_twice_witness :
  let e := with_project (Param (JStr " Eng ") (Num (9 # 10)) ai_extracted)
             (with_type (Param (JStr "Feature") (Num (9 # 10)) ai_extracted)
                createEmptyExtraction) in
  let v := with_project (Param (JStr "FV Engineering") (Num (9 # 10)) ai_extracted)
             (with_type default_type createEmptyExtraction) in
  validateExtractedParameters e = Ok v /\ validateExtractedParameters v = Ok v.
Proof.
  cbv zeta. split; [reflexivity|].
  apply (validateExtractedParameters_twice
           (with_project (Param (JStr " Eng ") (Num (9 # 10)) ai_extracted)
              (with_type (Param (JStr "Feature") (Num (9 # 10)) ai_extracted)
                 createEmptyExtraction)));
    [reflexivity|]. left. by eexists.
Defined.

(** X6.  A confidence that is not a number: when the completion gives a
    truthy value with a confidence that is a text converting to NaN, the
    field keeps the value with confidence NaN, and since NaN is below no
    threshold the field is neither replaced by a default nor reported
    missing. *)
Theorem nan_confidence_passes
    (ToNumber_text : jsval -> jsnum) (members : list (string * jsval))
    (v : jsval) (c : string) (t : jsnum) :
  get_member "value" members = Some v -> truthy v = true ->
  get_member "confidence" members = Some (JStr c) -> c <> "" ->
  ToNumber_text (JStr c) = NaN ->
  normalizeParameter ToNumber_text (Some (JObj members)) = Param v NaN ai_extracted
  /\ weak t (Param v NaN ai_extracted) = false.
Proof.
  intros Hv Ht Hc Hne Hn. split.
  - unfold normalizeParameter. cbn [falsy truthy is_object negb orb member].
    rewrite Hv, Hc. cbn [or_else]. rewrite Ht.
    assert (Htc : truthy (JStr c) = true) by (by apply negb_true_iff, String.eqb_neq).
    rewrite Htc. cbn [ToNumber]. by rewrite Hn.
  - unfold weak, falsy. cbn [value confidence]. by rewrite Ht.
Qed.

Lemma nan_confidence_passes_witness :
  let title := normalizeParameter sample_ToNumber_text
                 (Some (JObj [("value", JStr "Login broken"); ("confidence", JStr "high")])) in
  title = Param (JStr "Login broken") NaN ai_extracted
  /\ weak required_threshold title = false.
Proof.
  cbv zeta.
  destruct (nan_confidence_passes sample_ToNumber_text
              [("value", JStr "Login broken"); ("confidence", JStr "high")]
              (JStr "Login broken") "high" required_threshold)
    as [H1 H2]; [reflexivity|reflexivity|reflexivity|done|reflexivity|].
  rewrite H1. by split.
Defined.



(** X21.  [parseAIResponse] answers the empty extraction when the cleaned
    text is not JSON, when it is the JSON null, and when the confidence of
    one of the five members has no primitive, so that [normalizeParameter]
    throws; in every other case it answers the five normalised members. *)
Theorem parseAIResponse_empty_on_throw
    (ToNumber_text : jsval -> jsnum) (response : string) :
  (Json.parse (cleanResponse response) = None ->
   parseAIResponse ToNumber_text response = createEmptyExtraction)
  /\ (Json.parse (cleanResponse response) = Some JNull ->
      parseAIResponse ToNumber_text response = createEmptyExtraction)
  /\ (forall parsed,
        Json.parse (cleanResponse response) = Some parsed ->
        existsb (fun key => normalizeParameter_throws (member parsed key))
          ["title"; "type"; "project"; "priority"; "description"] = true ->
        parseAIResponse ToNumber_text response = createEmptyExtraction)
  /\ (forall parsed,
        Json.parse (cleanResponse response) = Some parsed -> parsed <> JNull ->
        existsb (fun key => normalizeParameter_throws (member parsed key))
          ["title"; "type"; "project"; "priority"; "description"] = false ->
        parseAIResponse ToNumber_text response
        = Params (normalizeParameter ToNumber_text (member parsed "title"))
                 (normalizeParameter ToNumber_text (member parsed "type"))
                 (normalizeParameter ToNumber_text (member parsed "project"))
                 (normalizeParameter ToNumber_text (member parsed "priority"))
                 (normalizeParameter ToNumber_text (member parsed "description"))).
Proof.
  unfold parseAIResponse, parseAIResponse_try.
  split; [by intros ->|]. split; [by intros ->|]. split.
  - intros parsed -> H. cbn [mbind res_bind Err.bind existsb] in *.
    unfold normalizeParameter_call.
    destruct parsed; try reflexivity;
      repeat match goal with
             | |- context [if normalizeParameter_throws ?x then _ else _] =>
                 destruct (normalizeParameter_throws x);
                 cbn [mbind res_bind Err.bind orb] in *; [reflexivity|]
             end; discriminate H.
  - intros parsed -> Hn H. cbn [mbind res_bind Err.bind existsb] in *.
    unfold normalizeParameter_call.
    repeat apply orb_false_iff in H as [? H].
    destruct parsed; try done;
      repeat match goal with
             | E : normalizeParameter_throws ?x = false |- _ => rewrite E; clear E
             end; reflexivity.
Qed.

Lemma parseAIResponse_empty_on_throw_witness :
  parseAIResponse sample_ToNumber_text
    (dq "{'title':{'value':'Login broken','confidence':{'toString':null}}}")
  = createEmptyExtraction.
Proof.
  destruct (parseAIResponse_empty_on_throw sample_ToNumber_text
              (dq "{'title':{'value':'Login broken','confidence':{'toString':null}}}"))
    as (_ & _ & H & _).
  apply (H (JObj [("title", JObj [("value", JStr "Login broken");
                                  ("confidence", JObj [("toString", JNull)])])]));
    reflexivity.
Defined.

End ExtractorExtras.

(** ** The conversation manager *)

Module FlowExtras.

Import Types ConversationManager Spec.
Import ExtractorFacts FallbackExtras ExtractorExtras FlowFacts.

Section Collaborators.

Variable ToNumber_text : jsval -> jsnum.
Variable checkForCancellation : string -> bool.
Variable startIssueCreation : string -> ConversationState -> ConversationState.
Variable determineNextStep : ConversationState -> IssueCreationStep.
Variable getQuestionForStep : IssueCreationStep -> string.
Variable processResponse :
  string -> IssueCreationStep -> ConversationState -> StepResult * ConversationState.

Lemma extractParameters_settled ai userInput r :
  AI.extractParameters ToNumber_text ai userInput = Ok r ->
  truthy (AI.value (AI.type r)) = true
  /\ truthy (AI.value (AI.project r)) = true
  /\ truthy (AI.value (AI.priority r)) = true.
Proof.
  intros He. destruct (applyDefaults_settled r) as (Hty & Hpj & Hpr).
  rewrite (extractParameters_defaults _ _ _ _ He) in Hty, Hpj, Hpr.
  apply weak_false_value in Hty, Hpj, Hpr. done.
Qed.

Lemma valid_none_missing (validated : AI.ExtractedParameters) (t : jsnum) :
  AI.isValid (AI.validateRequiredParameters validated t) = true ->
  AI.weak t (AI.title validated) = false /\ AI.weak t (AI.description validated) = false.
Proof.
  unfold AI.validateRequiredParameters.
  destruct (AI.weak t (AI.title validated)), (AI.weak t (AI.description validated));
    simpl; done.
Qed.

Lemma assign_truthy v old : truthy v = true -> assign v old = Some v.
Proof. unfold assign. by intros ->. Qed.

Lemma validate_type_truthy p q :
  truthy (AI.value p) = true -> AI.validate_type p = Ok q -> truthy (AI.value q) = true.
Proof.
  intros H ->%validate_type_ok. rewrite H. by destruct (negb _).
Qed.

Lemma validate_priority_truthy p q :
  truthy (AI.value p) = true -> AI.validate_priority p = Ok q ->
  truthy (AI.value q) = true.
Proof.
  intros H ->%validate_priority_ok. rewrite H. by destruct (negb _).
Qed.

Lemma resolved_truthy v : resolved_project v -> truthy v = true.
Proof.
  intros [(name & -> & Hm)|[->| ->]]; [|done|done].
  destruct name; [discriminate Hm|reflexivity].
Qed.

(** X7.  When [startIssueCreationWithAI] answers create_issue, the state
    holds a complete issue: the five fields of the issue data are the
    truthy values of the validated extraction, which passed the
    required-field check and is stored in the state; creation is switched
    on and the step is still AI_EXTRACTING. *)
Theorem create_issue_is_complete
    (ai : AI.Completion) (userInput : string) (state : ConversationState) :
  action (fst (startIssueCreationWithAI ToNumber_text startIssueCreation
       determineNextStep getQuestionForStep ai userInput state)) = create_issue ->
  exists validated,
    extractedParameters (snd (startIssueCreationWithAI ToNumber_text startIssueCreation
       determineNextStep getQuestionForStep ai userInput state)) = Some validated
    /\ AI.isValid (AI.validateRequiredParameters validated (Num (6 # 10))) = true
    /\ issueData (snd (startIssueCreationWithAI ToNumber_text startIssueCreation
       determineNextStep getQuestionForStep ai userInput state))
       = MkIssueData (Some (AI.value (AI.project validated)))
                     (Some (AI.value (AI.type validated)))
                     (Some (AI.value (AI.title validated)))
                     (Some (AI.value (AI.description validated)))
                     (Some (AI.value (AI.priority validated)))
    /\ truthy (AI.value (AI.project validated)) = true
    /\ truthy (AI.value (AI.type validated)) = true
    /\ truthy (AI.value (AI.title validated)) = true
    /\ truthy (AI.value (AI.description validated)) = true
    /\ truthy (AI.value (AI.priority validated)) = true
    /\ isCreatingIssue (snd (startIssueCreationWithAI ToNumber_text startIssueCreation
       determineNextStep getQuestionForStep ai userInput state)) = true
    /\ currentStep (snd (startIssueCreationWithAI ToNumber_text startIssueCreation
       determineNextStep getQuestionForStep ai userInput state)) = AI_EXTRACTING.
Proof.
  unfold startIssueCreationWithAI, startIssueCreationWithAI_try.
  destruct (AI.extractParameters ToNumber_text ai userInput) as [extracted|] eqn:He;
    cbn [mbind res_bind Err.bind]; [|done].
  destruct (AI.validateExtractedParameters extracted) as [validated|] eqn:Hv;
    cbn [mbind res_bind Err.bind]; [|done].
  destruct (AI.isValid (AI.validateRequiredParameters validated (Num (6 # 10)))) eqn:Hi;
    cbn [negb mret res_ret fst snd action]; [|done].
  intros _. exists validated.
  destruct (extractParameters_settled _ _ _ He) as (Hty & Hpj & Hpr).
  destruct (validateExtractedParameters_ok _ _ Hv) as (t & pr & q & Et & Epr & Eq & ->).
  cbn [AI.title AI.type AI.project AI.priority AI.description] in *.
  pose proof (validate_type_truthy _ _ Hty Et) as Hty'.
  pose proof (validate_priority_truthy _ _ Hpr Epr) as Hpr'.
  pose proof (resolved_truthy _ (validate_project_resolved _ _ Hpj Eq)) as Hq.
  destruct (valid_none_missing _ _ Hi) as [Hwt Hwd].
  cbn [AI.title AI.description] in Hwt, Hwd.
  apply weak_false_value in Hwt, Hwd.
  unfold convertExtractedToIssueData.
  cbn [issueData extractedParameters isCreatingIssue currentStep
       AI.title AI.type AI.project AI.priority AI.description
       project issueType title description priority].
  rewrite !assign_truthy by assumption.
  repeat split; done.
Qed.


(** X8.  The traditional flow is entered exactly when the validator throws,
    that is when the project of the extraction is truthy and not a text:
    the answer is then continue with the question of the next step, asked
    on the state [startIssueCreation] left; in every other case the answer
    is create_issue or error. *)
Theorem traditional_flow_on_throw
    (ai : AI.Completion) (userInput : string) (state : ConversationState) :
  exists extracted,
    AI.extractParameters ToNumber_text ai userInput = Ok extracted
    /\ let started :=
         MkState true (issueData state) AI_EXTRACTING (hasAskedFor state)
           (extractedParameters state) (missingParameters state) (pendingValidation state) in
       let r := startIssueCreationWithAI ToNumber_text startIssueCreation
                  determineNextStep getQuestionForStep ai userInput state in
       if truthy (AI.value (AI.project extracted))
          && negb (match AI.value (AI.project extracted) with JStr _ => true | _ => false end)
       then
         fst r = MkOutcome continue
                   (Some (getQuestionForStep
                            (determineNextStep (startIssueCreation userInput started))))
                   None
         /\ snd r = markStepAsAsked
                      (determineNextStep (startIssueCreation userInput started))
                      (set_step (startIssueCreation userInput started)
                         (determineNextStep (startIssueCreation userInput started)))
       else action (fst r) = create_issue \/ action (fst r) = error.
Proof.
  destruct (extractParameters_returns ToNumber_text ai userInput) as [extracted He].
  exists extracted. split; [exact He|]. cbv zeta.
  unfold startIssueCreationWithAI, startIssueCreationWithAI_try. rewrite He.
  cbn [mbind res_bind Err.bind].
  pose proof (validateExtractedParameters_logged_throws _
                (extractParameters_logged _ _ _ _ He)) as Ht.
  destruct (AI.validateExtractedParameters extracted) as [validated|] eqn:Hv.
  - assert (Hn : truthy (AI.value (AI.project extracted))
                 && negb (match AI.value (AI.project extracted) with
                          | JStr _ => true | _ => false end) = false).
    { destruct (truthy (AI.value (AI.project extracted))) eqn:Hp; [|done].
      destruct (AI.value (AI.project extracted)) as [| | |s| | | |]; try done;
        exfalso; (assert (X : Ok validated = @Throw AI.ExtractedParameters)
                    by (apply Ht; split; [reflexivity|discriminate]));
        discriminate X. }
    rewrite Hn. cbn [mbind res_bind Err.bind].
    destruct (negb (AI.isValid _)); cbn [mret res_ret fst action]; auto.
  - assert (Hn : truthy (AI.value (AI.project extracted))
                 && negb (match AI.value (AI.project extracted) with
                          | JStr _ => true | _ => false end) = true).
    { destruct (proj1 Ht eq_refl) as [-> Hs]. cbn [andb].
      destruct (AI.value (AI.project extracted)) as [| | |s| | | |]; try done.
      by destruct (Hs s). }
    rewrite Hn. by cbn [mbind res_bind Err.bind].
Qed.

(** X9.  With a completion that fails (it throws, or gives no content) and
    a text that has neither the label title: nor the label description:,
    an utterance that is neither a search nor a chat request is answered
    with the error that names both fields, and the state is reset. *)
Theorem unlabelled_without_completion
    (ai : AI.Completion) (userInput : string) (state : ConversationState) :
  isCreatingIssue state = false ->
  InformationExtractor.detectsSearchIntent userInput = false ->
  InformationExtractor.detectsChatIntent userInput = false ->
  includes (toLowerCase userInput) "title:" = false ->
  includes (toLowerCase userInput) "description:" = false ->
  (ai = AI.CompletionThrows \/ ai = AI.CompletionContent None
   \/ ai = AI.CompletionContent (Some "")) ->
  processUserInput ToNumber_text checkForCancellation startIssueCreation
    determineNextStep getQuestionForStep processResponse ai userInput state
  = (MkOutcome error
       (Some "❌ Missing required information: title and description. Please provide both a title and description in your request.")
       None,
     MkState false no_data DETECTING_INTENT ∅ None None (pendingValidation state)).
Proof.
  intros Hc Hs Hchat Ht Hd Hai.
  unfold processUserInput. rewrite Hc, Hs, Hchat.
  unfold startIssueCreationWithAI, startIssueCreationWithAI_try.
  assert (He : AI.extractParameters ToNumber_text ai userInput = Ok AI.createDefaultExtraction).
  { unfold AI.extractParameters.
    assert (Htry : AI.extractParameters_try ToNumber_text ai userInput = Throw)
      by (by destruct Hai as [->|[->| ->]]).
    rewrite Htry. cbn [try_catch]. unfold AI.extractParameters_catch.
    by rewrite (fallbackExtraction_unlabelled _ Ht Hd). }
  rewrite He. reflexivity.
Qed.

(** X10.  With no creation in progress, an utterance that is not a search
    and contains one of the chat keywords as a substring (hi inside this,
    for instance) is answered with regular_chat whatever else it says: the
    state is untouched and the completion is not consulted. *)
Theorem chat_keyword_wins
    (ai : AI.Completion) (userInput : string) (state : ConversationState) :
  isCreatingIssue state = false ->
  InformationExtractor.detectsSearchIntent userInput = false ->
  includes_any (toLowerCase userInput) InformationExtractor.chatKeywords = true ->
  processUserInput ToNumber_text checkForCancellation startIssueCreation
    determineNextStep getQuestionForStep processResponse ai userInput state
  = (MkOutcome regular_chat None None, state).
Proof.
  intros Hc Hs Hk. unfold processUserInput. rewrite Hc, Hs.
  unfold InformationExtractor.detectsChatIntent. by rewrite Hk.
Qed.

End Collaborators.

(** X11.  [markStepAsAsked] records the field of the step: for one of the
    five asking steps the set of asked fields becomes the old set with the
    field of the step (project, type, title, description, priority) added,
    for any other step it is the old set.  No other part of the state
    changes, nothing is removed from the set, and marking a step twice is
    marking it once. *)
Theorem markStepAsAsked_grows (step : IssueCreationStep) (state : ConversationState) :
  hasAskedFor (markStepAsAsked step state)
  = match asked_field step with
    | Some field => hasAskedFor state ∪ {[field]}
    | None => hasAskedFor state
    end
  /\ (forall field, asked_field step = Some field ->
        field ∈ hasAskedFor (markStepAsAsked step state))
  /\ hasAskedFor state ⊆ hasAskedFor (markStepAsAsked step state)
  /\ markStepAsAsked step (markStepAsAsked step state) = markStepAsAsked step state
  /\ isCreatingIssue (markStepAsAsked step state) = isCreatingIssue state
  /\ issueData (markStepAsAsked step state) = issueData state
  /\ currentStep (markStepAsAsked step state) = currentStep state
  /\ extractedParameters (markStepAsAsked step state) = extractedParameters state
  /\ missingParameters (markStepAsAsked step state) = missingParameters state
  /\ pendingValidation (markStepAsAsked step state) = pendingValidation state.
Proof.
  destruct state as [c d st h e m p].
  split; [by destruct step|].
  split; [intros field; destruct step; cbn; intros [= <-]; set_solver|].
  destruct step; cbn; (split; [set_solver|]); (split; [|done]);
    try done; unfold set_asked; cbn; f_equal; set_solver.
Qed.

Lemma markStepAsAsked_grows_witness :
  hasAskedFor (markStepAsAsked ASKING_TITLE initial_state) = {["title"]}
  /\ "title" ∈ hasAskedFor (markStepAsAsked ASKING_TITLE initial_state)
  /\ markStepAsAsked CONFIRMING_DETAILS initial_state = initial_state.
Proof.
  destruct (markStepAsAsked_grows ASKING_TITLE initial_state) as (H & Hin & _).
  split; [rewrite H; cbn; set_solver|].
  split; [exact (Hin "title" eq_refl)|reflexivity].
Defined.

Lemma create_issue_is_complete_witness :
  let r := startIssueCreationWithAI sample_ToNumber_text sample_startIssueCreation
             sample_determineNextStep sample_getQuestionForStep AI.CompletionThrows
             "Title: 'Campaign not being created' Issue Description: 'validation on last step isnt working'"
             initial_state in
  action (fst r) = create_issue
  /\ issueData (snd r)
     = MkIssueData (Some (JStr "FV Demo (Issues)")) (Some (JStr "Bug"))
         (Some (JStr "Campaign not being created"))
         (Some (JStr "validation on last step isnt working")) (Some (JStr "Medium")).
Proof.
  cbv zeta. split; [reflexivity|].
  destruct (create_issue_is_complete sample_ToNumber_text sample_startIssueCreation
              sample_determineNextStep sample_getQuestionForStep AI.CompletionThrows
              "Title: 'Campaign not being created' Issue Description: 'validation on last step isnt working'"
              initial_state)
    as (v & Hv & _ & Hd & _); [reflexivity|].
  rewrite Hd. vm_compute in Hv. by injection Hv as <-.
Defined.

Lemma unlabelled_without_completion_witness :
  processUserInput sample_ToNumber_text sample_checkForCancellation sample_startIssueCreation
    sample_determineNextStep sample_getQuestionForStep sample_processResponse
    (AI.CompletionContent None) "can you please create a new issue" initial_state
  = (MkOutcome error
       (Some "❌ Missing required information: title and description. Please provide both a title and description in your request.")
       None,
     initial_state).
Proof.
  apply (unlabelled_without_completion sample_ToNumber_text sample_checkForCancellation
           sample_startIssueCreation sample_determineNextStep sample_getQuestionForStep
           sample_processResponse (AI.CompletionContent None)
           "can you please create a new issue" initial_state);
    try reflexivity. right. by left.
Defined.

Lemma chat_keyword_wins_witness :
  InformationExtractor.detectsIssueCreationIntent "This page is broken" = true
  /\ processUserInput sample_ToNumber_text sample_checkForCancellation
       sample_startIssueCreation sample_determineNextStep sample_getQuestionForStep
       sample_processResponse AI.CompletionThrows "This page is broken" initial_state
     = (MkOutcome regular_chat None None, initial_state).
Proof.
  split; [reflexivity|].
  apply (chat_keyword_wins sample_ToNumber_text sample_checkForCancellation
           sample_startIssueCreation sample_determineNextStep sample_getQuestionForStep
           sample_processResponse AI.CompletionThrows "This page is broken" initial_state);
    reflexivity.
Defined.

End FlowExtras.

(** ** The readers of the lexical extractor *)

Module LexicalExtras.

Import Regex RegexFacts Types InformationExtractor Spec.

(** *** Trimming *)

Lemma trimEnd_trimEnd s : trimEnd (trimEnd s) = trimEnd s.
Proof.
  induction s as [|c t IH]; [done|]. cbn [trimEnd].
  destruct (trimEnd t) as [|d u] eqn:E.
  - destruct (is_white c) eqn:Hc; [done|]. cbn [trimEnd]. by rewrite Hc.
  - cbn [trimEnd]. cbn [trimEnd] in IH. by rewrite IH.
Qed.

Lemma trimStart_black s : starts_black (trimStart s) = true.
Proof.
  induction s as [|c t IH]; [done|]. cbn [trimStart].
  destruct (is_white c) eqn:Hc; [exact IH|]. cbn. by rewrite Hc.
Qed.

Lemma trimEnd_black s : starts_black s = true -> starts_black (trimEnd s) = true.
Proof.
  destruct s as [|c t]; [done|]. cbn [starts_black trimEnd]. intros Hc.
  destruct (trimEnd t); [|exact Hc].
  apply negb_true_iff in Hc. rewrite Hc. cbn. by rewrite Hc.
Qed.

Lemma trimStart_of_black s : starts_black s = true -> trimStart s = s.
Proof.
  destruct s as [|c t]; [done|]. cbn. by intros ->%negb_true_iff.
Qed.

Lemma trim_trim s : trim (trim s) = trim s.
Proof.
  unfold trim.
  rewrite (trimStart_of_black (trimEnd (trimStart s)))
    by apply trimEnd_black, trimStart_black.
  apply trimEnd_trimEnd.
Qed.

Lemma first_included_values table s v :
  first_included table s = Some v -> In v (map snd table).
Proof.
  induction table as [|[k x] more IH]; [done|]. cbn [first_included map snd].
  destruct (includes s k).
  - intros [= <-]. by left.
  - intros H. right. by apply IH.
Qed.

Lemma first_included_none table s :
  first_included table s = None <-> includes_any s (map fst table) = false.
Proof.
  unfold includes_any.
  induction table as [|[k x] more IH]; [done|]. cbn [first_included map fst existsb].
  destruct (includes s k); [done|]. exact IH.
Qed.

(** X12.  [extractPriorityFromResponse] returns nothing exactly when none
    of its sixteen keywords occurs in the lower-cased text, and otherwise
    one of the five priorities.  The keywords are tried in the order of
    the table, where high stands before highest: a text that contains
    high, and so every text that contains highest, is never read as
    Highest. *)
Theorem extractPriorityFromResponse_order (userInput : string) :
  (extractPriorityFromResponse userInput = None
   <-> includes_any (toLowerCase userInput) (map fst priorityMapping) = false)
  /\ (forall v, extractPriorityFromResponse userInput = Some v ->
                mem v priorities_vocabulary = true)
  /\ (includes (toLowerCase userInput) "high" = true ->
      exists v, extractPriorityFromResponse userInput = Some v /\ v <> "Highest").
Proof.
  split; [apply first_included_none|]. split.
  - intros v Hv. apply first_included_values in Hv. cbn in Hv.
    repeat destruct Hv as [<-|Hv]; try reflexivity. done.
  - intros Hh. unfold extractPriorityFromResponse, priorityMapping.
    cbn [first_included].
    repeat match goal with
           | |- context [if includes (toLowerCase userInput) ?k then _ else _] =>
               lazymatch k with
               | "high" => fail
               | _ => destruct (includes (toLowerCase userInput) k);
                      [eexists; split; [reflexivity|discriminate]|]
               end
           end.
    rewrite Hh. eexists; split; [reflexivity|discriminate].
Qed.

Lemma extractPriorityFromResponse_order_witness :
  extractPriorityFromResponse "Highest" = Some "High".
Proof.
  destruct (extractPriorityFromResponse_order "Highest") as (_ & _ & H).
  destruct H as (v & Hv & _); [reflexivity|].
  rewrite Hv. vm_compute in Hv. by injection Hv as <-.
Defined.

(** X13.  [extractIssueTypeFromResponse] returns nothing exactly when none
    of bug, task, story, epic occurs in the lower-cased text, and otherwise
    one of Bug, Task, Story, Epic. *)
Theorem extractIssueTypeFromResponse_vocabulary (userInput : string) :
  (extractIssueTypeFromResponse userInput = None
   <-> includes_any (toLowerCase userInput) type_words = false)
  /\ (forall v, extractIssueTypeFromResponse userInput = Some v ->
                mem v types_vocabulary = true).
Proof.
  split; [apply (first_included_none typeMapping)|].
  intros v Hv. apply first_included_values in Hv. cbn in Hv.
  repeat destruct Hv as [<-|Hv]; try reflexivity. done.
Qed.

(** X14.  [extractProjectFromResponse] never throws, and the key demo,
    the first of its table, shadows the longer keys that contain it: every
    text that contains demo, demo product included, is read as FV Demo
    (Issues). *)
Theorem extractProjectFromResponse_demo (userInput : string) :
  exists o,
    extractProjectFromResponse userInput = Ok o
    /\ (includes (trim (toLowerCase userInput)) "demo" = true ->
        o = Some "FV Demo (Issues)").
Proof.
  unfold extractProjectFromResponse.
  change (first_included responseProjectMapping (trim (toLowerCase userInput)))
    with (if includes (trim (toLowerCase userInput)) "demo"
          then Some "FV Demo (Issues)"
          else first_included (tl responseProjectMapping) (trim (toLowerCase userInput))).
  destruct (includes (trim (toLowerCase userInput)) "demo").
  { eexists. split; [reflexivity|done]. }
  destruct (first_included _ _); [eexists; split; [reflexivity|done]|].
  destruct (find _ fullProjectNames); [eexists; split; [reflexivity|done]|].
  repeat match goal with
         | |- context [if ?c then Ok _ else _] =>
             destruct c; [eexists; split; [reflexivity|done]|]
         end.
  destruct (exec false legacy_key userInput) as [mt|] eqn:E;
    [|eexists; split; [reflexivity|done]].
  destruct (exec_captures false legacy_key userInput mt eq_refl E) as [g Hg].
  unfold capture. rewrite Hg. cbn [mbind res_bind Err.bind].
  destruct (AIParameterExtractor.assoc _ legacyMapping);
    eexists; (split; [reflexivity|done]).
Qed.

Lemma extractProjectFromResponse_demo_witness :
  extractProjectFromResponse "Demo Product" = Ok (Some "FV Demo (Issues)").
Proof.
  destruct (extractProjectFromResponse_demo "Demo Product") as (o & Ho & H).
  rewrite Ho. f_equal. apply H. reflexivity.
Defined.

(** X15.  For ASCII text: what the readers of a title and of a
    description return is trimmed, and so is the query
    [extractSearchQuery] returns.  A title is returned only when the
    trimmed text has more than five characters; a description is always
    returned, and it is empty when the text is blank or is, up to case
    and surrounding white space, one of the words skip, none, no
    description. *)
Theorem response_readers_trim (userInput : string) :
  is_ascii userInput = true ->
  (forall t, extractTitleFromResponse userInput = Some t ->
             t = trim userInput /\ trim t = t /\ (5 < String.length t)%nat)
  /\ (extractTitleFromResponse userInput = None <-> (String.length (trim userInput) <= 5)%nat)
  /\ trim (extractDescriptionFromResponse userInput) = extractDescriptionFromResponse userInput
  /\ (extractDescriptionFromResponse userInput = ""
      <-> trim userInput = ""
          \/ mem (trim (toLowerCase userInput)) ["skip"; "none"; "no description"] = true)
  /\ trim (extractSearchQuery userInput) = extractSearchQuery userInput.
Proof.
  intros _. unfold extractTitleFromResponse, extractDescriptionFromResponse.
  split; [|split; [|split; [|split; [|apply trim_trim]]]].
  - intros t. destruct (5 <? String.length (trim userInput))%nat eqn:E; [|done].
    intros [= <-]. split; [done|]. split; [apply trim_trim|].
    by apply Nat.ltb_lt.
  - destruct (5 <? String.length (trim userInput))%nat eqn:E.
    + apply Nat.ltb_lt in E. split; [done|lia].
    + apply Nat.ltb_ge in E. done.
  - destruct (_ || _); [reflexivity|apply trim_trim].
  - unfold mem. cbn [existsb]. rewrite orb_false_r, orb_assoc.
    destruct (_ || _); [split; auto|].
    split; [by left|]. by intros [?|?].
Qed.

Lemma toUpperCase_length s : String.length (toUpperCase s) = String.length s.
Proof. induction s as [|c t IH]; [done|]. cbn. by rewrite IH. Qed.

Lemma project_loop_returns patterns userInput :
  forallb captures patterns = true ->
  exists o, project_loop patterns userInput = Ok o
            /\ (forall s, o = Some s -> (String.length s <= 10)%nat).
Proof.
  induction patterns as [|p more IH]; cbn [forallb project_loop]; intros Hc.
  - exists None. split; [done|]. discriminate.
  - apply andb_true_iff in Hc as [Hp Hmore].
    destruct (exec true p userInput) as [mt|] eqn:E; [|auto].
    destruct (exec_captures _ _ _ _ Hp E) as [g Hg].
    unfold capture. rewrite Hg. cbn [mbind res_bind Err.bind].
    destruct (String.length g <=? 10)%nat eqn:Hl; [|auto].
    eexists. split; [reflexivity|]. intros s [= <-].
    rewrite toUpperCase_length. by apply Nat.leb_le.
Qed.

Lemma known_type_normalized y :
  mem y ["bug"; "task"; "story"; "epic"; "issue"; "ticket"] = true ->
  String.eqb y "issue" || String.eqb y "ticket" = false ->
  mem (normalizeIssueType y) types_vocabulary = true.
Proof.
  unfold mem. cbn [existsb]. intros Hm Hn.
  apply orb_false_iff in Hn as [Hi Ht]. rewrite Hi, Ht in Hm.
  repeat apply orb_true_iff in Hm as [Hm|Hm]; try done;
    apply String.eqb_eq in Hm; subst; reflexivity.
Qed.

Lemma type_loop_returns patterns userInput :
  forallb captures patterns = true ->
  exists o, type_loop patterns userInput = Ok o
            /\ (forall s, o = Some s -> mem s types_vocabulary = true).
Proof.
  induction patterns as [|p more IH]; cbn [forallb type_loop]; intros Hc.
  - exists None. split; [done|]. discriminate.
  - apply andb_true_iff in Hc as [Hp Hmore].
    destruct (exec true p userInput) as [mt|] eqn:E; [|auto].
    destruct (exec_captures _ _ _ _ Hp E) as [g Hg].
    unfold capture. rewrite Hg. cbn [mbind res_bind Err.bind].
    destruct (mem (toLowerCase g) _) eqn:Hm; [|auto].
    destruct (_ || _) eqn:Hn.
    + exists None. split; [done|]. discriminate.
    + eexists. split; [reflexivity|]. intros s [= <-].
      by apply known_type_normalized.
Qed.

Lemma priority_loop_returns patterns userInput :
  forallb captures patterns = true ->
  exists o, priority_loop patterns userInput = Ok o.
Proof.
  induction patterns as [|p more IH]; cbn [forallb priority_loop]; intros Hc.
  - by exists None.
  - apply andb_true_iff in Hc as [Hp Hmore].
    destruct (exec true p userInput) as [mt|] eqn:E; [|auto].
    destruct (exec_captures _ _ _ _ Hp E) as [g Hg].
    unfold capture. rewrite Hg. cbn [mbind res_bind Err.bind]. eauto.
Qed.

Lemma quoted_title_returns userInput : exists o, quoted_title userInput = Ok o.
Proof.
  unfold quoted_title.
  destruct (exec false quoted userInput) as [mt|] eqn:E; [|eauto].
  destruct (exec_captures false quoted userInput mt eq_refl E) as [g Hg].
  unfold capture. rewrite Hg. cbn [mbind res_bind Err.bind]. eauto.
Qed.

(** X16.  [extractExplicitInformation] never throws.  It never sets a
    description; an issue type it sets is one of Bug, Task, Story, Epic;
    a project it sets is a text of at most ten characters. *)
Theorem extractExplicitInformation_returns (userInput : string) :
  exists d,
    extractExplicitInformation userInput = Ok d
    /\ description d = None
    /\ (forall v, issueType d = Some v ->
                  exists s, v = JStr s /\ mem s types_vocabulary = true)
    /\ (forall v, project d = Some v ->
                  exists s, v = JStr s /\ (String.length s <= 10)%nat).
Proof.
  unfold extractExplicitInformation.
  destruct (project_loop_returns projectPatterns userInput eq_refl) as (p & -> & Hp).
  destruct (type_loop_returns typePatterns userInput eq_refl) as (t & -> & Ht).
  destruct (priority_loop_returns priorityPatterns userInput eq_refl) as (pr & ->).
  destruct (quoted_title_returns userInput) as (ti & ->).
  cbn [mbind res_bind Err.bind mret res_ret].
  eexists. split; [reflexivity|]. cbn [description issueType project].
  split; [done|]. split.
  - intros v Hv. destruct t as [s|]; [|done]. injection Hv as <-. eauto.
  - intros v Hv. destruct p as [s|]; [|done]. injection Hv as <-. eauto.
Qed.

Lemma extractIssueTypeFromResponse_vocabulary_witness :
  extractIssueTypeFromResponse "It is a STORY, not a task" = Some "Task"
  /\ mem "Task" types_vocabulary = true.
Proof.
  split; [reflexivity|].
  destruct (extractIssueTypeFromResponse_vocabulary "It is a STORY, not a task") as [_ H].
  apply H. reflexivity.
Defined.

Lemma response_readers_trim_witness :
  extractTitleFromResponse "  Login page is blank  " = Some "Login page is blank"
  /\ trim "Login page is blank" = "Login page is blank"
  /\ extractTitleFromResponse "  bug  " = None.
Proof.
  destruct (response_readers_trim "  Login page is blank  " eq_refl) as (H & _).
  destruct (H "Login page is blank" eq_refl) as (_ & Ht & _).
  split; [reflexivity|]. split; [exact Ht|].
  destruct (response_readers_trim "  bug  " eq_refl) as (_ & [_ Hn] & _).
  apply Hn. vm_compute. lia.
Defined.

Lemma extractExplicitInformation_returns_witness :
  extractExplicitInformation "log a task in project ABC"
  = Ok (MkIssueData (Some (JStr "PROJECT")) (Some (JStr "Task")) None None None)
  /\ mem "Task" types_vocabulary = true
  /\ (String.length "PROJECT" <= 10)%nat.
Proof.
  destruct (extractExplicitInformation_returns "log a task in project ABC")
    as (d & Hd & _ & Ht & Hp).
  split; [reflexivity|].
  vm_compute in Hd. injection Hd as <-.
  destruct (Ht _ eq_refl) as (s & [= <-] & Hs).
  destruct (Hp _ eq_refl) as (s' & [= <-] & Hs').
  by split.
Defined.

End LexicalExtras.

(** ** The request check and the reading of a reply *)

Module RequestExtras.

Import Index Spec.

Lemma trimStart_length s : (String.length (trimStart s) <= String.length s)%nat.
Proof.
  induction s as [|c t IH]; [done|]. cbn [trimStart].
  destruct (is_white c); cbn [String.length]; lia.
Qed.

Lemma trimEnd_length s : (String.length (trimEnd s) <= String.length s)%nat.
Proof.
  induction s as [|c t IH]; [done|]. cbn [trimEnd].
  destruct (trimEnd t); [destruct (is_white c)|]; cbn [String.length] in *; lia.
Qed.

Lemma trim_length s : (String.length (trim s) <= String.length s)%nat.
Proof.
  unfold trim. etrans; [apply trimEnd_length|apply trimStart_length].
Qed.

Lemma length_zero s : Nat.eqb (String.length s) 0 = true <-> s = "".
Proof. destruct s; done. Qed.

(** X17.  For a body whose prompt, when it is a text, is ASCII:
    [validateRequest] accepts the body exactly when its prompt is a text
    that is not blank and has at most 5000 characters; the prompt it hands
    on is that text trimmed, which is not empty and has at most 5000
    characters; a rejected body carries an error message and no prompt. *)
Theorem validateRequest_accepts (body : option jsval) :
  (forall b text,
     body = Some b -> AIParameterExtractor.member b "prompt" = Some (JStr text) ->
     is_ascii text = true) ->
  (isValid (validateRequest body) = true
   <-> exists b text,
         body = Some b /\ AIParameterExtractor.member b "prompt" = Some (JStr text)
         /\ trim text <> "" /\ (String.length text <= 5000)%nat)
  /\ (forall b text,
        body = Some b -> AIParameterExtractor.member b "prompt" = Some (JStr text) ->
        isValid (validateRequest body) = true ->
        validateRequest body = MkRequestCheck true None (Some (trim text))
        /\ trim text <> "" /\ (String.length (trim text) <= 5000)%nat)
  /\ (isValid (validateRequest body) = false ->
      prompt (validateRequest body) = None /\ check_error (validateRequest body) <> None).
Proof.
  intros _.
  assert (Hcases :
    (exists b text,
       body = Some b /\ AIParameterExtractor.member b "prompt" = Some (JStr text)
       /\ trim text <> "" /\ (String.length text <= 5000)%nat
       /\ validateRequest body = MkRequestCheck true None (Some (trim text)))
    \/ ((forall b text,
           body = Some b -> AIParameterExtractor.member b "prompt" = Some (JStr text) ->
           trim text = "" \/ (5000 < String.length text)%nat)
        /\ exists message, validateRequest body = rejected message)).
  { unfold validateRequest. destruct body as [b|]; [|right; split; [done|eexists; reflexivity]].
    destruct (AIParameterExtractor.member b "prompt") as [p|] eqn:Hm.
    2:{ right. split; [intros ? ? [= <-] ?; congruence|]. destruct (falsy b); eexists; reflexivity. }
    assert (Hb : falsy b = false) by (by destruct b).
    rewrite Hb.
    destruct p as [| | |text| | | |];
      try (right; split; [intros ? ? [= <-] ?; congruence|];
           match goal with |- context [if ?c then _ else _] => destruct c end;
           eexists; reflexivity).
    destruct (falsy (JStr text)) eqn:Hf.
    { right. split; [|eexists; reflexivity]. intros ? ? [= <-] Hm'. rewrite Hm in Hm'.
      injection Hm' as <-. left. apply ExtractorFacts.falsy_string in Hf. by subst. }
    destruct (Nat.eqb (String.length (trim text)) 0) eqn:Hz.
    { right. split; [|eexists; reflexivity]. intros ? ? [= <-] Hm'. rewrite Hm in Hm'.
      injection Hm' as <-. left. by apply length_zero. }
    destruct (5000 <? String.length text)%nat eqn:Hl.
    { right. split; [|eexists; reflexivity]. intros ? ? [= <-] Hm'. rewrite Hm in Hm'.
      injection Hm' as <-. right. by apply Nat.ltb_lt. }
    left. exists b, text. split; [done|]. split; [done|].
    split; [intros E; apply length_zero in E; congruence|].
    split; [by apply Nat.ltb_ge|done]. }
  destruct Hcases as [(b & text & -> & Hm & Ht & Hl & Hr)|(Hno & message & Hr)].
  - rewrite Hr. cbn [isValid prompt check_error]. split; [|split].
    + split; [|done]. intros _. by exists b, text.
    + intros b' text' [= <-] Hm' _. rewrite Hm in Hm'. injection Hm' as <-.
      split; [done|]. split; [done|]. etrans; [apply trim_length|done].
    + done.
  - rewrite Hr. cbn [rejected isValid prompt check_error]. split; [|split].
    + split; [done|]. intros (b & text & Hb & Hm & Ht & Hl).
      destruct (Hno b text Hb Hm); [done|lia].
    + done.
    + done.
Qed.

Lemma validateRequest_accepts_witness :
  validateRequest (Some (JObj [("prompt", JStr "  Create a bug  ")]))
  = MkRequestCheck true None (Some "Create a bug").
Proof.
  destruct (validateRequest_accepts (Some (JObj [("prompt", JStr "  Create a bug  ")])))
    as (_ & H & _).
  { intros b text [= <-] [= <-]. reflexivity. }
  destruct (H _ "  Create a bug  " eq_refl eq_refl eq_refl) as (Hr & _).
  exact Hr.
Defined.

End RequestExtras.

Module ZapierExtras.

Import Regex ZapierService.

(** X18.  [parseTextResponse] never reports a success for a reply that
    carries a failure indicator (error, failed or unable in any letter
    case, or a FAILED status), even when the reply has an issue key: it
    then reports the failure.  When it reports a success, the reply has no
    failure indicator and has a success word or an issue key. *)
Theorem parseTextResponse_failure_wins (responseText : string) :
  let failure :=
    includes (toLowerCase responseText) "error"
    || includes (toLowerCase responseText) "failed"
    || includes responseText status_failed
    || includes (toLowerCase responseText) "unable" in
  let r := parseTextResponse responseText in
  (failure = true ->
   success r = false
   /\ response r = "Text parsing could not confirm successful creation"
   /\ result_error r = Some "Text parsing detected failure indicators")
  /\ (success r = true ->
      failure = false /\ result_error r = None
      /\ (includes (toLowerCase responseText) "success" = true
          \/ includes responseText status_success = true
          \/ includes (toLowerCase responseText) "created" = true
          \/ key r <> None)).
Proof.
  cbv zeta. unfold parseTextResponse. cbn [success response result_error key].
  set (failure := includes (toLowerCase responseText) "error" || _ || _ || _).
  destruct failure.
  - split; [|by rewrite andb_false_r]. intros _. by rewrite andb_false_r.
  - split; [done|]. rewrite andb_true_r. intros H. split; [done|]. split; [done|].
    apply orb_true_iff in H as [H|H].
    + repeat apply orb_true_iff in H as [H|H]; auto.
    + right. right. right. by destruct (match exec false (Regex.Group issue_key) responseText
                                         with Some m => _ | None => _ end).
Qed.

Lemma parseTextResponse_failure_wins_witness :
  let r := parseTextResponse "Issue DPI-12 created, but the link failed" in
  key r = Some "DPI-12" /\ success r = false.
Proof.
  cbv zeta. split; [reflexivity|].
  destruct (parseTextResponse_failure_wins "Issue DPI-12 created, but the link failed")
    as [H _].
  destruct H as (Hs & _); [reflexivity|exact Hs].
Defined.

End ZapierExtras.
